(** * QA quality gates and stage promotion: a shallow embedding

    The four scripts under [scripts/] are embedded as Rocq functions over
    an explicit file system:

    - [evaluate_qa_quality_gates.py]  (class [QAQualityGateEvaluator], [main])
    - [check_qa_gate_status.py]       ([check_qa_gate_status], [main])
    - [create_qa_promotion_report.py] ([create_qa_promotion_report], [main])
    - [promote_to_testing.py]         (class [TestingPromoter], [main])

    Conventions of the embedding.

    - A value produced by [json.load] is a [json] tree.  A dict is an
      association list read with first-match lookup.
    - Python numbers are exact rationals ([Q]): an [int] is an integer
      rational, [True]/[False] count as [1]/[0] in arithmetic, and [/] is
      exact division.  Rounding of binary floating point, [NaN], the
      infinities and integers too large to convert to a float (for which
      Python raises [OverflowError]) are outside the model: a property
      that would depend on them is stated for numbers that fit a float, or
      as a relation between the fields of the record returned.
    - A Python exception is a value of [exc]; a [try ... except Exception]
      block is a [match] on it.
    - The file system is a finite map from paths (lists of components) to
      file contents; a directory exists when some file lies below it.  A
      directory is listed in the order of the finite map, one of the
      orders the operating system may give.
    - What the operating system decides (whether a write succeeds, the
      clock) is an explicit argument. *)

From Stdlib Require Import ZArith QArith String Ascii List Bool Lia.
From stdpp Require Import base option list gmap strings.

Open Scope string_scope.
Open Scope Z_scope.

Set Warnings "-register-all".

(** ** Python values and exceptions *)

Inductive json : Type :=
| JNull
| JBool (b : bool)
| JNum (q : Q)
| JStr (s : string)
| JArr (items : list json)
| JObj (fields : list (string * json)).

Inductive pyexn : Type :=
| AttributeError
| TypeError
| KeyError
| ValueError
| JSONDecodeError
| OSError.

Inductive exc (A : Type) : Type :=
| Ok (a : A)
| Raise (e : pyexn).
Arguments Ok {A} a.
Arguments Raise {A} e.

Definition bind {A B : Type} (m : exc A) (k : A -> exc B) : exc B :=
  match m with
  | Ok a => k a
  | Raise e => Raise e
  end.

Notation "x <- m ;; k" := (bind m (fun x => k))
  (at level 100, m at next level, right associativity).

Definition is_ok {A : Type} (m : exc A) : bool :=
  match m with Ok _ => true | Raise _ => false end.

(** [d[k]] lookup in a loaded dict. *)
Fixpoint assoc (k : string) (fields : list (string * json)) : option json :=
  match fields with
  | [] => None
  | (k', v) :: rest => if String.eqb k k' then Some v else assoc k rest
  end.

(** [x.get(k, d)]: only a dict has the method. *)
Definition py_get (x : json) (k : string) (d : json) : exc json :=
  match x with
  | JObj fields => Ok (default d (assoc k fields))
  | _ => Raise AttributeError
  end.

(** [x[k]] with a string key. *)
Definition py_subscript (x : json) (k : string) : exc json :=
  match x with
  | JObj fields =>
      match assoc k fields with
      | Some v => Ok v
      | None => Raise KeyError
      end
  | _ => Raise TypeError
  end.

(** [x == s] for a string literal [s]. *)
Definition py_eq_str (x : json) (s : string) : bool :=
  match x with
  | JStr t => String.eqb t s
  | _ => false
  end.

(** Does [s] start with [p]? *)
Fixpoint starts_with (p s : string) : bool :=
  match p, s with
  | EmptyString, _ => true
  | String a p', String b s' => Ascii.eqb a b && starts_with p' s'
  | String _ _, EmptyString => false
  end.

(** [p in s] on strings. *)
Fixpoint substringb (p s : string) : bool :=
  starts_with p s ||
  match s with
  | EmptyString => false
  | String _ s' => substringb p s'
  end.

Definition ends_with (suffix s : string) : bool :=
  starts_with (String.rev suffix) (String.rev s).

(** [k in x] for a string literal [k]. *)
Definition py_contains (k : string) (x : json) : exc bool :=
  match x with
  | JObj fields => Ok (bool_decide (is_Some (assoc k fields)))
  | JArr items => Ok (existsb (fun v => py_eq_str v k) items)
  | JStr s => Ok (substringb k s)
  | _ => Raise TypeError
  end.

(** The elements a [for] loop or a comprehension visits. *)
Definition py_iter (x : json) : exc (list json) :=
  match x with
  | JArr items => Ok items
  | JObj fields => Ok (map (fun kv => JStr (fst kv)) fields)
  | JStr s => Ok (map (fun c => JStr (String c EmptyString)) (list_ascii_of_string s))
  | _ => Raise TypeError
  end.

(** [len([r for r in items if p(r)])]; the first failing [p] raises. *)
Fixpoint count_where (p : json -> exc bool) (items : list json) : exc Z :=
  match items with
  | [] => Ok 0
  | r :: rest =>
      b <- p r ;;
      n <- count_where p rest ;;
      Ok (if b then 1 + n else n)
  end.

(** The number an operand stands for in arithmetic and in an ordering
    comparison with a number; any other operand raises [TypeError]. *)
Definition as_num (x : json) : exc Q :=
  match x with
  | JNum q => Ok q
  | JBool true => Ok 1%Q
  | JBool false => Ok 0%Q
  | _ => Raise TypeError
  end.

(** Truth value of [x] in a condition. *)
Definition truthy (x : json) : bool :=
  match x with
  | JNull => false
  | JBool b => b
  | JNum q => negb (Qeq_bool q 0)
  | JStr s => negb (String.eqb s "")
  | JArr items => negb (bool_decide (items = []))
  | JObj fields => negb (bool_decide (fields = []))
  end.

(** [f"{x:.1f}"]: only numbers have the format.  (An [int] too large for a
    float, for which Python raises [OverflowError], is outside the number
    model.) *)
Definition format_1f (x : json) : exc unit :=
  match x with
  | JNum _ | JBool _ => Ok tt
  | JStr _ => Raise ValueError
  | _ => Raise TypeError
  end.

Definition Qmax0 (q : Q) : Q := if Qle_bool q 0 then 0%Q else q.

(** ** File system *)

Definition path := list string.

(** [Path(d) / name] *)
Definition joinpath (d : path) (name : string) : path := (d ++ [name])%list.
Infix "//" := joinpath (at level 40, left associativity).

(** What a file holds: text that is not JSON, text that [json.load] reads
    as [j], or the README of the testing stage, kept as the values its
    template interpolates. *)
Inductive content : Type :=
| Raw (text : string)
| JsonDoc (j : json)
| ReadmeDoc (promotion_timestamp : string) (templates_promoted : Z)
            (scores : list json).

Fixpoint is_prefix (p q : path) : bool :=
  match p, q with
  | [], _ => true
  | a :: p', b :: q' => String.eqb a b && is_prefix p' q'
  | _ :: _, [] => false
  end.

Definition strictly_below (d q : path) : bool :=
  is_prefix d q && (length d <? length q)%nat.

Definition is_file (fs : gmap path content) (p : path) : bool :=
  bool_decide (is_Some (fs !! p)).

Definition is_dir (fs : gmap path content) (p : path) : bool :=
  existsb (fun kv => strictly_below p (fst kv)) (map_to_list fs).

(** [Path.exists()] *)
Definition path_exists (fs : gmap path content) (p : path) : bool :=
  is_file fs p || is_dir fs p.

(** [open(p, 'r')]: a directory or a missing path cannot be opened. *)
Definition open_file (fs : gmap path content) (p : path) : exc content :=
  match fs !! p with
  | Some c => Ok c
  | None => Raise OSError
  end.

(** [json.load(f)] *)
Definition json_parse (c : content) : exc json :=
  match c with
  | JsonDoc j => Ok j
  | _ => Raise JSONDecodeError
  end.

(** [with open(p, 'r') as f: json.load(f)] *)
Definition json_load (fs : gmap path content) (p : path) : exc json :=
  f <- open_file fs p ;;
  json_parse f.

(** The paths from just below [d] down to [q], when [q] lies below [d]. *)
Definition steps_between (d q : path) : list path :=
  if strictly_below d q
  then map (fun n => take n q) (seq (S (length d)) (length q - length d)%nat)
  else [].

(** Every file and directory below [d]. *)
Definition entries_below (fs : gmap path content) (d : path) : list path :=
  remove_dups (flat_map (fun kv => steps_between d (fst kv)) (map_to_list fs)).

(** [Path.name] *)
Definition name (p : path) : string := List.last p "".

(** [str.rfind('.')] *)
Fixpoint rfind_dot_from (cs : list ascii) (i : nat) (found : option nat)
  : option nat :=
  match cs with
  | [] => found
  | c :: cs' =>
      rfind_dot_from cs' (S i) (if Ascii.eqb c "." then Some i else found)
  end.

Definition rfind_dot (s : string) : option nat :=
  rfind_dot_from (list_ascii_of_string s) 0%nat None.

(** [Path.suffix]: the part of the name from its last dot, unless that dot
    starts or ends the name. *)
Definition suffix (p : path) : string :=
  let n := name p in
  match rfind_dot n with
  | Some i =>
      if (0 <? i)%nat && (i <? String.length n - 1)%nat
      then substring i (String.length n - i) n
      else ""
  | None => ""
  end.

(** [Path.stem] *)
Definition stem (p : path) : string :=
  let n := name p in
  substring 0 (String.length n - String.length (suffix p)) n.

(** [Path.with_suffix(s)] *)
Definition with_suffix (p : path) (s : string) : exc path :=
  if String.eqb (name p) "" then Raise ValueError
  else Ok (removelast p // (stem p ++ s)).

(** [Path.parent] *)
Definition parent (p : path) : path := removelast p.

(** [str(p)] *)
Definition str_of_path (p : path) : string := String.concat "/" p.

(** ** [evaluate_qa_quality_gates.py]: class [QAQualityGateEvaluator] *)

(** [self.quality_gates], set in [__init__] and never assigned again. *)
Module quality_gates.
Definition security_score_threshold : Q := 90%Q.
Definition compliance_pass_rate : Q := 100%Q.
Definition code_quality_score : Q := 85%Q.
Definition performance_baseline_met : bool := true.
Definition vulnerability_count_limit : Z := 0.
Definition test_coverage_minimum : Q := 80%Q.
End quality_gates.

Module SecurityRecord.
Record t : Type := mk {
  security_score : Q;
  vulnerability_count : Z;
  passed : bool
}.
End SecurityRecord.

(** One tool report block of [evaluate_security_results]: what it adds to
    [security_score] and to [vulnerability_count].  [None] when the report
    does not exist: the block is skipped and adds no term. *)
Definition tool_term := option (Z * Z).

(** Body of the Bandit [try]. *)
Definition bandit_try (fs : gmap path content) (bandit_file : path) : exc (Z * Z) :=
  bandit_data <- json_load fs bandit_file ;;
  results <- py_get bandit_data "results" (JArr []) ;;
  rs <- py_iter results ;;
  high_severity <-
    count_where (fun r => s <- py_get r "issue_severity" JNull ;;
                          Ok (py_eq_str s "HIGH")) rs ;;
  medium_severity <-
    count_where (fun r => s <- py_get r "issue_severity" JNull ;;
                          Ok (py_eq_str s "MEDIUM")) rs ;;
  Ok (Z.max 0 (100 - high_severity * 20 - medium_severity * 10),
      high_severity + medium_severity).

Definition bandit_term (fs : gmap path content) (security_results_dir : path)
  : tool_term :=
  let bandit_file := security_results_dir // "bandit-report.json" in
  if path_exists fs bandit_file then
    match bandit_try fs bandit_file with
    | Ok sv => Some sv
    | Raise _ => Some (50, 0)
    end
  else None.

(** Body of the Safety [try]. *)
Definition safety_try (fs : gmap path content) (safety_file : path) : exc (Z * Z) :=
  safety_data <- json_load fs safety_file ;;
  let vuln_count :=
    match safety_data with
    | JArr items => Z.of_nat (length items)
    | _ => 0
    end in
  Ok (Z.max 0 (100 - vuln_count * 15), vuln_count).

Definition safety_term (fs : gmap path content) (security_results_dir : path)
  : tool_term :=
  let safety_file := security_results_dir // "safety-report.json" in
  if path_exists fs safety_file then
    match safety_try fs safety_file with
    | Ok sv => Some sv
    | Raise _ => Some (50, 0)
    end
  else None.

(** Body of the Semgrep [try]. *)
Definition semgrep_try (fs : gmap path content) (semgrep_file : path) : exc (Z * Z) :=
  semgrep_data <- json_load fs semgrep_file ;;
  findings <- py_get semgrep_data "results" (JArr []) ;;
  fl <- py_iter findings ;;
  critical_findings <-
    count_where (fun f => extra <- py_get f "extra" (JObj []) ;;
                          s <- py_get extra "severity" JNull ;;
                          Ok (py_eq_str s "ERROR")) fl ;;
  Ok (Z.max 0 (100 - critical_findings * 25), critical_findings).

Definition semgrep_term (fs : gmap path content) (security_results_dir : path)
  : tool_term :=
  let semgrep_file := security_results_dir // "semgrep-report.json" in
  if path_exists fs semgrep_file then
    match semgrep_try fs semgrep_file with
    | Ok sv => Some sv
    | Raise _ => Some (50, 0)
    end
  else None.

(** [security_score += ...; vulnerability_count += ...] *)
Definition add_term (acc : Z * Z) (t : tool_term) : Z * Z :=
  match t with
  | Some (s, v) => (fst acc + s, snd acc + v)
  | None => acc
  end.

(** The two accumulators after the three blocks. *)
Definition security_totals (fs : gmap path content) (security_results_dir : path)
  : Z * Z :=
  let acc := (0, 0) in
  let acc := add_term acc (bandit_term fs security_results_dir) in
  let acc := add_term acc (safety_term fs security_results_dir) in
  let acc := add_term acc (semgrep_term fs security_results_dir) in
  acc.

Definition evaluate_security_results (fs : gmap path content)
    (security_results_dir : path) : SecurityRecord.t :=
  let '(security_score, vulnerability_count) :=
    security_totals fs security_results_dir in
  let avg_security_score : Q :=
    if 0 <? security_score then (inject_Z security_score / 3)%Q else 0%Q in
  SecurityRecord.mk
    avg_security_score
    vulnerability_count
    (Qle_bool quality_gates.security_score_threshold avg_security_score
     && (vulnerability_count <=? quality_gates.vulnerability_count_limit)).

(** The score terms of the three tools, a missing report giving none. *)
Definition security_terms (fs : gmap path content) (security_results_dir : path)
  : list Z :=
  omap (fun t : tool_term => fst <$> t)
    [bandit_term fs security_results_dir;
     safety_term fs security_results_dir;
     semgrep_term fs security_results_dir].

Definition sumZ (l : list Z) : Z := fold_right Z.add 0 l.

Module ComplianceRecord.
Record t : Type := mk {
  compliance_pass_rate : Q;
  passed_checks : Z;
  total_checks : Z;
  passed : bool
}.
End ComplianceRecord.

Definition compliance_checks : list string :=
  ["gdpr-compliance.json"; "hipaa-compliance.json";
   "soc2-compliance.json"; "iso27001-compliance.json"].

(** Body of the [try] of one compliance check: does the check count? *)
Definition compliance_try (fs : gmap path content) (file_path : path) : exc bool :=
  compliance_data <- json_load fs file_path ;;
  status <- py_get compliance_data "status" JNull ;;
  if py_eq_str status "PASSED" then Ok true
  else
    compliant <- py_get compliance_data "compliant" (JBool false) ;;
    Ok (truthy compliant).

Fixpoint compliance_loop (fs : gmap path content) (compliance_results_dir : path)
    (checks : list string) (passed_checks : Z) : Z :=
  match checks with
  | [] => passed_checks
  | check_file :: rest =>
      let file_path := compliance_results_dir // check_file in
      let passed_checks :=
        if path_exists fs file_path then
          match compliance_try fs file_path with
          | Ok true => passed_checks + 1
          | Ok false => passed_checks
          | Raise _ => passed_checks
          end
        else passed_checks in
      compliance_loop fs compliance_results_dir rest passed_checks
  end.

Definition evaluate_compliance_results (fs : gmap path content)
    (compliance_results_dir : path) : ComplianceRecord.t :=
  let passed_checks := compliance_loop fs compliance_results_dir compliance_checks 0 in
  let total_checks := Z.of_nat (length compliance_checks) in
  let pass_rate : Q :=
    if 0 <? total_checks
    then (inject_Z passed_checks / inject_Z total_checks * 100)%Q
    else 0%Q in
  ComplianceRecord.mk pass_rate passed_checks total_checks
    (Qle_bool quality_gates.compliance_pass_rate pass_rate).

Module QualityRecord.
Record t : Type := mk {
  quality_score : Q;
  coverage_score : json;
  passed : bool
}.
End QualityRecord.

(** Body of the complexity [try]: the term added to [quality_score].
    [100 - (avg_complexity * 5)] raises unless the operand is a number. *)
Definition complexity_try (fs : gmap path content) (complexity_file : path) : exc Q :=
  complexity_data <- json_load fs complexity_file ;;
  avg_complexity <- py_get complexity_data "averageComplexity" (JNum 10) ;;
  c <- as_num avg_complexity ;;
  Ok (Qmax0 (100 - c * 5)%Q).

(** The complexity block: the term it adds, none when the report is missing. *)
Definition complexity_term (fs : gmap path content) (quality_results_dir : path)
  : option Q :=
  let complexity_file := quality_results_dir // "complexity-report.json" in
  if path_exists fs complexity_file then
    match complexity_try fs complexity_file with
    | Ok s => Some s
    | Raise _ => Some 70%Q
    end
  else None.

(** Body of the technical debt [try]. *)
Definition debt_try (fs : gmap path content) (debt_file : path) : exc Q :=
  debt_data <- json_load fs debt_file ;;
  debt_score <- py_get debt_data "debt_score" (JNum 80) ;;
  as_num debt_score.

Definition debt_term (fs : gmap path content) (quality_results_dir : path)
  : option Q :=
  let debt_file := quality_results_dir // "technical-debt.json" in
  if path_exists fs debt_file then
    match debt_try fs debt_file with
    | Ok s => Some s
    | Raise _ => Some 70%Q
    end
  else None.

(** [quality_score] after the two report blocks. *)
Definition quality_total (fs : gmap path content) (quality_results_dir : path) : Q :=
  let quality_score := 0%Q in
  let quality_score :=
    match complexity_term fs quality_results_dir with
    | Some s => (quality_score + s)%Q
    | None => quality_score
    end in
  let quality_score :=
    match debt_term fs quality_results_dir with
    | Some s => (quality_score + s)%Q
    | None => quality_score
    end in
  quality_score.

(** [coverage_dir.glob("*summary*")]: the entries directly in the directory
    whose name contains [summary], in the order the model lists a directory. *)
Definition glob_summary (fs : gmap path content) (coverage_dir : path) : list path :=
  filter (fun p => length p = S (length coverage_dir)
                   ∧ substringb "summary" (name p) = true)
         (entries_below fs coverage_dir).

(** Body of the [try] in the coverage loop, up to its [break]. *)
Definition coverage_try (fs : gmap path content) (coverage_file : path)
    (coverage_score : json) : exc json :=
  f <- open_file fs coverage_file ;;
  if String.eqb (suffix coverage_file) ".json" then
    coverage_data <- json_parse f ;;
    has_total <- py_contains "total" coverage_data ;;
    if has_total : bool then
      total <- py_subscript coverage_data "total" ;;
      lines <- py_get total "lines" (JObj []) ;;
      py_get lines "pct" (JNum 85)
    else Ok coverage_score
  else Ok coverage_score.

(** The loop leaves at the first file whose body does not raise. *)
Fixpoint coverage_loop (fs : gmap path content) (files : list path)
    (coverage_score : json) : json :=
  match files with
  | [] => coverage_score
  | coverage_file :: rest =>
      match coverage_try fs coverage_file coverage_score with
      | Ok c => c
      | Raise _ => coverage_loop fs rest coverage_score
      end
  end.

Definition coverage_of (fs : gmap path content) (quality_results_dir : path) : json :=
  let coverage_dir := quality_results_dir // "coverage" in
  let coverage_score := JNum 85 in
  if path_exists fs coverage_dir
  then coverage_loop fs (glob_summary fs coverage_dir) coverage_score
  else coverage_score.

Definition avg_quality_score (quality_score : Q) : Q :=
  if negb (Qle_bool quality_score 0) then (quality_score / 2)%Q else 85%Q.

(** The final comparison [coverage_score >= ...] sits outside every [try]:
    a coverage figure that is not a number raises out of the evaluator. *)
Definition evaluate_quality_results (fs : gmap path content)
    (quality_results_dir : path) : exc QualityRecord.t :=
  let quality_score := quality_total fs quality_results_dir in
  let coverage_score := coverage_of fs quality_results_dir in
  let avg := avg_quality_score quality_score in
  passed <-
    (if Qle_bool quality_gates.code_quality_score avg
     then c <- as_num coverage_score ;;
          Ok (Qle_bool quality_gates.test_coverage_minimum c)
     else Ok false) ;;
  Ok (QualityRecord.mk avg coverage_score passed).

Module PerformanceRecord.
Record t : Type := mk {
  performance_score : Q;
  response_time_ms : option json;
  memory_usage_mb : option json;
  lighthouse_score : option json;
  baseline_met : bool;
  passed : bool;
  note : option string
}.
End PerformanceRecord.

(** Body of the performance [try]. *)
Definition performance_try (fs : gmap path content) (baseline_file : path)
  : exc PerformanceRecord.t :=
  perf_data <- json_load fs baseline_file ;;
  response_time <- py_get perf_data "avg_response_time" (JNum 1000) ;;
  memory_usage <- py_get perf_data "peak_memory_mb" (JNum 512) ;;
  lighthouse_score <- py_get perf_data "lighthouse_performance" (JNum 90) ;;
  rt <- as_num response_time ;;
  let response_score := Qmax0 (100 - rt / 10)%Q in
  mu <- as_num memory_usage ;;
  let memory_score := Qmax0 (100 - mu / 10)%Q in
  lh <- as_num lighthouse_score ;;
  let avg_perf_score := ((response_score + memory_score + lh) / 3)%Q in
  let baseline_met := Qle_bool 75 avg_perf_score in
  Ok (PerformanceRecord.mk avg_perf_score (Some response_time)
        (Some memory_usage) (Some lighthouse_score) baseline_met baseline_met
        None).

(** The record after the comment [Default performance evaluation]. *)
Definition default_performance : PerformanceRecord.t :=
  PerformanceRecord.mk 80 None None None true true
    (Some "Performance baseline not available, assuming pass").

Definition evaluate_performance_results (fs : gmap path content)
    (performance_results_dir : path) : PerformanceRecord.t :=
  let baseline_file := performance_results_dir // "performance-baseline.json" in
  if path_exists fs baseline_file then
    match performance_try fs baseline_file with
    | Ok r => r
    | Raise _ => default_performance
    end
  else default_performance.

Module EvaluationResult.
Record t : Type := mk {
  security : SecurityRecord.t;
  compliance : ComplianceRecord.t;
  quality : QualityRecord.t;
  performance : PerformanceRecord.t;
  overall_status : string;
  timestamp : string
}.
End EvaluationResult.

(** [all([...])] over the four flags. *)
Definition all_passed (flags : list bool) : bool := forallb id flags.

Definition evaluate_all_gates (now : string) (fs : gmap path content)
    (security_dir compliance_dir quality_dir performance_dir : path)
  : exc EvaluationResult.t :=
  let security := evaluate_security_results fs security_dir in
  let compliance := evaluate_compliance_results fs compliance_dir in
  quality <- evaluate_quality_results fs quality_dir ;;
  let performance := evaluate_performance_results fs performance_dir in
  let all_passed :=
    all_passed [SecurityRecord.passed security;
                ComplianceRecord.passed compliance;
                QualityRecord.passed quality;
                PerformanceRecord.passed performance] in
  (* the printed summary: its [:.1f] fields sit outside every [try] *)
  _ <- format_1f (JNum (SecurityRecord.security_score security)) ;;
  _ <- format_1f (JNum (ComplianceRecord.compliance_pass_rate compliance)) ;;
  _ <- format_1f (JNum (QualityRecord.quality_score quality)) ;;
  _ <- format_1f (QualityRecord.coverage_score quality) ;;
  _ <- format_1f (JNum (PerformanceRecord.performance_score performance)) ;;
  Ok (EvaluationResult.mk security compliance quality performance
        (if all_passed then "PASSED" else "FAILED") now).

(** ** Writing files and leaving the process *)

(** How a script run ends: [sys.exit(code)], or an exception nobody caught,
    for which the interpreter prints a traceback and exits with status 1. *)
Inductive run : Type :=
| Exit (code : Z)
| Uncaught (e : pyexn).

Definition exit_code (r : run) : Z :=
  match r with
  | Exit code => code
  | Uncaught _ => 1
  end.

(** Is some non-empty prefix of [d] a regular file? *)
Definition blocked_by_file (fs : gmap path content) (d : path) : bool :=
  existsb (fun n => is_file fs (take n d)) (seq 1 (length d)).

(** [Path.mkdir(parents=True, exist_ok=True)].  [unwritable] says where
    the operating system refuses to create or write. *)
Definition mkdir_p (unwritable : path -> bool) (fs : gmap path content) (d : path)
  : exc unit :=
  if blocked_by_file fs d || unwritable d then Raise OSError else Ok tt.

(** [os.makedirs(d, exist_ok=True)]: the empty path is rejected. *)
Definition makedirs (unwritable : path -> bool) (fs : gmap path content) (d : path)
  : exc unit :=
  if bool_decide (d = []) then Raise OSError else mkdir_p unwritable fs d.

(** [with open(p, 'w') as f: ...] writing [c]. *)
Definition write_file (unwritable : path -> bool) (fs : gmap path content)
    (p : path) (c : content) : exc (gmap path content) :=
  if unwritable p || is_dir fs p || blocked_by_file fs (parent p)
  then Raise OSError
  else Ok (<[p := c]> fs).

Definition JInt (z : Z) : json := JNum (inject_Z z).

Definition json_of_option {A : Type} (key : string) (f : A -> json) (o : option A)
  : list (string * json) :=
  match o with
  | Some a => [(key, f a)]
  | None => []
  end.

Definition json_of_security (r : SecurityRecord.t) : json :=
  JObj [("security_score", JNum (SecurityRecord.security_score r));
        ("vulnerability_count", JInt (SecurityRecord.vulnerability_count r));
        ("passed", JBool (SecurityRecord.passed r))].

Definition json_of_compliance (r : ComplianceRecord.t) : json :=
  JObj [("compliance_pass_rate", JNum (ComplianceRecord.compliance_pass_rate r));
        ("passed_checks", JInt (ComplianceRecord.passed_checks r));
        ("total_checks", JInt (ComplianceRecord.total_checks r));
        ("passed", JBool (ComplianceRecord.passed r))].

Definition json_of_quality (r : QualityRecord.t) : json :=
  JObj [("quality_score", JNum (QualityRecord.quality_score r));
        ("coverage_score", QualityRecord.coverage_score r);
        ("passed", JBool (QualityRecord.passed r))].

Definition json_of_performance (r : PerformanceRecord.t) : json :=
  JObj ([("performance_score", JNum (PerformanceRecord.performance_score r))]
        ++ json_of_option "response_time_ms" id (PerformanceRecord.response_time_ms r)
        ++ json_of_option "memory_usage_mb" id (PerformanceRecord.memory_usage_mb r)
        ++ json_of_option "lighthouse_score" id (PerformanceRecord.lighthouse_score r)
        ++ [("baseline_met", JBool (PerformanceRecord.baseline_met r));
            ("passed", JBool (PerformanceRecord.passed r))]
        ++ json_of_option "note" JStr (PerformanceRecord.note r))%list.

Definition json_of_quality_gates : json :=
  JObj [("security_score_threshold", JNum quality_gates.security_score_threshold);
        ("compliance_pass_rate", JNum quality_gates.compliance_pass_rate);
        ("code_quality_score", JNum quality_gates.code_quality_score);
        ("performance_baseline_met", JBool quality_gates.performance_baseline_met);
        ("vulnerability_count_limit", JInt quality_gates.vulnerability_count_limit);
        ("test_coverage_minimum", JNum quality_gates.test_coverage_minimum)].

(** What [json.dump(results, f)] writes and [json.load] reads back. *)
Definition json_of_evaluation (r : EvaluationResult.t) : json :=
  JObj [("security", json_of_security (EvaluationResult.security r));
        ("compliance", json_of_compliance (EvaluationResult.compliance r));
        ("quality", json_of_quality (EvaluationResult.quality r));
        ("performance", json_of_performance (EvaluationResult.performance r));
        ("overall_status", JStr (EvaluationResult.overall_status r));
        ("timestamp", JStr (EvaluationResult.timestamp r));
        ("quality_gates", json_of_quality_gates)].

(** [main] of [evaluate_qa_quality_gates.py]. *)
Module evaluate_qa_quality_gates_py.
Definition main (now : string) (unwritable : path -> bool) (fs : gmap path content)
    (security_results compliance_results quality_results performance_results
       output : path)
  : gmap path content * run :=
  match makedirs unwritable fs (parent output) with
  | Raise e => (fs, Uncaught e)
  | Ok _ =>
      match evaluate_all_gates now fs security_results compliance_results
              quality_results performance_results with
      | Raise e => (fs, Uncaught e)
      | Ok results =>
          match write_file unwritable fs output
                  (JsonDoc (json_of_evaluation results)) with
          | Raise e => (fs, Uncaught e)
          | Ok fs' =>
              (fs',
               Exit (if String.eqb (EvaluationResult.overall_status results) "PASSED"
                     then 0 else 1))
          end
      end
  end.
End evaluate_qa_quality_gates_py.

(** ** [check_qa_gate_status.py] *)

(** One block [if cat in evaluation_data: ...] of the printed summary. *)
Definition category_line (evaluation_data : json) (cat score_key : string)
  : exc unit :=
  present <- py_contains cat evaluation_data ;;
  if present : bool then
    record <- py_subscript evaluation_data cat ;;
    _ <- py_subscript record "passed" ;;
    score <- py_get record score_key (JInt 0) ;;
    format_1f score
  else Ok tt.

(** Body of the [try] of [check_qa_gate_status]. *)
Definition check_try (fs : gmap path content) (evaluation_file : path) : exc json :=
  evaluation_data <- json_load fs evaluation_file ;;
  overall_status <- py_get evaluation_data "overall_status" (JStr "FAILED") ;;
  _ <- category_line evaluation_data "security" "security_score" ;;
  _ <- category_line evaluation_data "compliance" "compliance_pass_rate" ;;
  _ <- category_line evaluation_data "quality" "quality_score" ;;
  _ <- category_line evaluation_data "performance" "performance_score" ;;
  Ok overall_status.

(** The value returned: whatever the file holds under [overall_status]. *)
Definition check_qa_gate_status (fs : gmap path content) (evaluation_file : path)
  : json :=
  if negb (path_exists fs evaluation_file) then JStr "FAILED"
  else
    match check_try fs evaluation_file with
    | Ok overall_status => overall_status
    | Raise _ => JStr "FAILED"
    end.

(** [main] of [check_qa_gate_status.py]: the status printed on the last
    line, and how the process ends. *)
Module check_qa_gate_status_py.
Definition main (fs : gmap path content) (evaluation_file : path) : json * run :=
  let status := check_qa_gate_status fs evaluation_file in
  (status, Exit (if py_eq_str status "PASSED" then 0 else 1)).
End check_qa_gate_status_py.

(** ** [create_qa_promotion_report.py] *)

(** [x.get(cat, {}).get(key, d)] *)
Definition get2 (x : json) (cat key : string) (d : json) : exc json :=
  record <- py_get x cat (JObj []) ;;
  py_get record key d.

Definition accuracy_threshold : Q := (999999 # 10000)%Q.

Definition create_qa_promotion_report (now : string) (fs : gmap path content)
    (qa_evaluation_file : path) (target_stage status : string) : exc json :=
  let qa_evaluation :=
    match json_load fs qa_evaluation_file with
    | Ok j => j
    | Raise _ => JObj []
    end in
  summary <- py_get qa_evaluation "overall_status" (JStr "UNKNOWN") ;;
  security_score <- get2 qa_evaluation "security" "security_score" (JInt 0) ;;
  compliance_pass_rate <-
    get2 qa_evaluation "compliance" "compliance_pass_rate" (JInt 0) ;;
  quality_score <- get2 qa_evaluation "quality" "quality_score" (JInt 0) ;;
  performance_score <-
    get2 qa_evaluation "performance" "performance_score" (JInt 0) ;;
  vulnerability_count <-
    get2 qa_evaluation "security" "vulnerability_count" (JInt 0) ;;
  security_certified <- get2 qa_evaluation "security" "passed" (JBool false) ;;
  passed_checks <- get2 qa_evaluation "compliance" "passed_checks" (JInt 0) ;;
  total_checks <- get2 qa_evaluation "compliance" "total_checks" (JInt 0) ;;
  compliance_validated <- get2 qa_evaluation "compliance" "passed" (JBool false) ;;
  let approved := String.eqb status "PASSED" in
  Ok (JObj
    [("promotion_report", JObj
       [("timestamp", JStr now);
        ("source_stage", JStr "qa");
        ("target_stage", JStr target_stage);
        ("promotion_status", JStr status);
        ("qa_validation_summary", summary);
        ("detailed_scores", JObj
           [("security_score", security_score);
            ("compliance_pass_rate", compliance_pass_rate);
            ("quality_score", quality_score);
            ("performance_score", performance_score)]);
        ("security_validation", JObj
           [("vulnerability_count", vulnerability_count);
            ("security_certified", security_certified)]);
        ("compliance_validation", JObj
           [("passed_checks", passed_checks);
            ("total_checks", total_checks);
            ("compliance_validated", compliance_validated)]);
        ("next_stage_requirements", JObj
           [("ultra_strict_validation", JBool true);
            ("accuracy_threshold", JNum accuracy_threshold);
            ("comprehensive_testing", JBool true);
            ("performance_benchmarking", JBool true);
            ("security_certification_required", JBool true)]);
        ("recommendation", JStr
           (if approved
            then "APPROVED - All QA quality gates passed, ready for Testing stage"
            else "REJECTED - QA quality gates failed, requires remediation"));
        ("action_taken", JStr
           (if approved
            then "Automatic promotion to Testing stage initiated"
            else "Promotion blocked, manual review required"))]);
     ("promotion_metadata", JObj
       [("pipeline_version", JStr "3.0.0");
        ("qa_stage_version", JStr "2.0.0");
        ("validation_framework", JStr "DartinBot Enterprise QA");
        ("promotion_automation", JBool true);
        ("quality_gates_enforced", JBool true)])]).

(** [main] of [create_qa_promotion_report.py]: it ends in [return 0], so
    the script leaves through [sys.exit(main())] with that value. *)
Module create_qa_promotion_report_py.
Definition report_file : path := ["reports"; "qa-promotion-report.json"].

Definition main (now : string) (unwritable : path -> bool) (fs : gmap path content)
    (qa_evaluation : path) (target status : string)
  : gmap path content * run :=
  if is_file fs ["reports"] || unwritable ["reports"] then (fs, Uncaught OSError)
  else
    match create_qa_promotion_report now fs qa_evaluation target status with
    | Raise e => (fs, Uncaught e)
    | Ok report =>
        match write_file unwritable fs report_file (JsonDoc report) with
        | Raise e => (fs, Uncaught e)
        | Ok fs' => (fs', Exit 0)
        end
    end.
End create_qa_promotion_report_py.

(** ** [promote_to_testing.py]: class [TestingPromoter] *)

Module TemplateDescriptor.
Record t : Type := mk {
  name : string;
  source_path : string;
  target_path : string;
  size_bytes : Z
}.
End TemplateDescriptor.

(** [self.promotion_metadata] *)
Module PromotionMetadata.
Record t : Type := mk {
  promotion_timestamp : string;
  source_stage : string;
  target_stage : string;
  promoted_templates : list TemplateDescriptor.t;
  qa_validation_summary : json;
  total_templates : option Z;
  successfully_promoted : option Z
}.
End PromotionMetadata.

(** [TestingPromoter.__init__] *)
Definition new_promoter (now : string) : PromotionMetadata.t :=
  PromotionMetadata.mk now "qa" "testing" [] (JObj []) None None.

(** The sidecar written next to a promoted template. *)
Definition sidecar_metadata (self : PromotionMetadata.t) (source_path : path)
    (qa_results : json) : exc json :=
  security_score <- get2 qa_results "security" "security_score" (JInt 0) ;;
  compliance_pass_rate <-
    get2 qa_results "compliance" "compliance_pass_rate" (JInt 0) ;;
  quality_score <- get2 qa_results "quality" "quality_score" (JInt 0) ;;
  performance_score <- get2 qa_results "performance" "performance_score" (JInt 0) ;;
  overall_status <- py_get qa_results "overall_status" (JStr "UNKNOWN") ;;
  Ok (JObj
    [("template_name", JStr (stem source_path));
     ("original_file", JStr (str_of_path source_path));
     ("promoted_from", JStr "qa");
     ("promotion_timestamp", JStr (PromotionMetadata.promotion_timestamp self));
     ("qa_validation", JObj
        [("security_score", security_score);
         ("compliance_pass_rate", compliance_pass_rate);
         ("quality_score", quality_score);
         ("performance_score", performance_score);
         ("overall_status", overall_status)]);
     ("testing_stage_requirements", JObj
        [("ultra_strict_validation", JBool true);
         ("accuracy_threshold", JNum accuracy_threshold);
         ("comprehensive_testing", JBool true);
         ("performance_benchmarking", JBool true)])]).

(** [shutil.copy2(src, dst)]: a destination that is a directory receives
    the file under the name of the source, and copying a file onto itself
    is refused ([SameFileError], an [OSError]). *)
Definition copy2 (unwritable : path -> bool) (fs : gmap path content)
    (src dst : path) : exc (gmap path content) :=
  let dst := if is_dir fs dst then dst // name src else dst in
  if bool_decide (src = dst) then Raise OSError
  else
    c <- open_file fs src ;;
    write_file unwritable fs dst c.

(** Body of the [try] of [copy_template_with_metadata]: the file system
    it leaves, and whether it ran to the end.  A write that happened before
    a later statement raises stays. *)
Definition copy_try (unwritable : path -> bool) (self : PromotionMetadata.t)
    (fs : gmap path content) (source_path target_path : path) (qa_results : json)
  : gmap path content * exc unit :=
  match mkdir_p unwritable fs (parent target_path) with
  | Raise e => (fs, Raise e)
  | Ok _ =>
      match copy2 unwritable fs source_path target_path with
      | Raise e => (fs, Raise e)
      | Ok fs1 =>
          match (metadata_file <- with_suffix target_path ".json" ;;
                 metadata <- sidecar_metadata self source_path qa_results ;;
                 write_file unwritable fs1 metadata_file (JsonDoc metadata)) with
          | Raise e => (fs1, Raise e)
          | Ok fs2 => (fs2, Ok tt)
          end
      end
  end.

Definition copy_template_with_metadata (unwritable : path -> bool)
    (self : PromotionMetadata.t) (fs : gmap path content)
    (source_path target_path : path) (qa_results : json)
  : gmap path content * bool :=
  match copy_try unwritable self fs source_path target_path qa_results with
  | (fs', Ok _) => (fs', true)
  | (fs', Raise _) => (fs', false)
  end.

(** [source_path.glob("**/*.md")]: every entry below the source directory
    whose name ends in [.md], in the order the model lists a directory. *)
Definition glob_md (fs : gmap path content) (source_path : path) : list path :=
  filter (fun p => ends_with ".md" (name p) = true) (entries_below fs source_path).

(** [template_file.relative_to(source_path)] *)
Definition relative_to (p base : path) : path := drop (length base) p.

(** The [for] loop of [promote_templates]; [st_size] is what [stat]
    reports for a file. *)
Fixpoint promote_loop (unwritable : path -> bool) (st_size : path -> Z)
    (source_path target_path : path) (qa_results : json)
    (template_files : list path)
    (self : PromotionMetadata.t) (fs : gmap path content) (promoted_count : Z)
  : PromotionMetadata.t * gmap path content * Z :=
  match template_files with
  | [] => (self, fs, promoted_count)
  | template_file :: rest =>
      let rel_path := relative_to template_file source_path in
      let target_file := (target_path ++ rel_path)%list in
      let '(fs', copied) :=
        copy_template_with_metadata unwritable self fs template_file target_file
          qa_results in
      if copied : bool then
        let descriptor :=
          TemplateDescriptor.mk (stem template_file) (str_of_path template_file)
            (str_of_path target_file) (st_size template_file) in
        let self' :=
          PromotionMetadata.mk
            (PromotionMetadata.promotion_timestamp self)
            (PromotionMetadata.source_stage self)
            (PromotionMetadata.target_stage self)
            (PromotionMetadata.promoted_templates self ++ [descriptor])%list
            (PromotionMetadata.qa_validation_summary self)
            (PromotionMetadata.total_templates self)
            (PromotionMetadata.successfully_promoted self) in
        promote_loop unwritable st_size source_path target_path qa_results rest
          self' fs' (promoted_count + 1)
      else
        promote_loop unwritable st_size source_path target_path qa_results rest
          self fs' promoted_count
  end.

Definition json_of_descriptor (d : TemplateDescriptor.t) : json :=
  JObj [("name", JStr (TemplateDescriptor.name d));
        ("source_path", JStr (TemplateDescriptor.source_path d));
        ("target_path", JStr (TemplateDescriptor.target_path d));
        ("size_bytes", JInt (TemplateDescriptor.size_bytes d))].

Definition json_of_promotion (m : PromotionMetadata.t) : json :=
  JObj ([("promotion_timestamp", JStr (PromotionMetadata.promotion_timestamp m));
         ("source_stage", JStr (PromotionMetadata.source_stage m));
         ("target_stage", JStr (PromotionMetadata.target_stage m));
         ("promoted_templates",
          JArr (map json_of_descriptor (PromotionMetadata.promoted_templates m)));
         ("qa_validation_summary", PromotionMetadata.qa_validation_summary m)]
        ++ json_of_option "total_templates" JInt (PromotionMetadata.total_templates m)
        ++ json_of_option "successfully_promoted" JInt
             (PromotionMetadata.successfully_promoted m))%list.

(** [promote_templates]: the promoter object and the file system it leaves,
    with the value returned or the exception that escapes. *)
Definition promote_templates (unwritable : path -> bool) (st_size : path -> Z)
    (self : PromotionMetadata.t) (fs : gmap path content)
    (source_dir target_dir qa_results_file : path)
  : PromotionMetadata.t * gmap path content * exc bool :=
  let source_path := source_dir in
  let target_path := target_dir in
  match json_load fs qa_results_file with
  | Raise _ => (self, fs, Ok false)
  | Ok qa_results =>
      match py_get qa_results "overall_status" JNull with
      | Raise e => (self, fs, Raise e)
      | Ok overall_status =>
          if negb (py_eq_str overall_status "PASSED") then (self, fs, Ok false)
          else
            let template_files := glob_md fs source_path in
            if bool_decide (template_files = []) then (self, fs, Ok false)
            else
              let '(self1, fs1, promoted_count) :=
                promote_loop unwritable st_size source_path target_path
                  qa_results template_files self fs 0 in
              let self2 :=
                PromotionMetadata.mk
                  (PromotionMetadata.promotion_timestamp self1)
                  (PromotionMetadata.source_stage self1)
                  (PromotionMetadata.target_stage self1)
                  (PromotionMetadata.promoted_templates self1)
                  qa_results
                  (Some (Z.of_nat (length template_files)))
                  (Some promoted_count) in
              let summary_file := target_path // "promotion_summary.json" in
              match write_file unwritable fs1 summary_file
                      (JsonDoc (json_of_promotion self2)) with
              | Raise e => (self2, fs1, Raise e)
              | Ok fs2 =>
                  (self2, fs2,
                   Ok (promoted_count =? Z.of_nat (length template_files)))
              end
      end
  end.

(** [create_testing_readme]: the values interpolated into the text are kept
    in the [ReadmeDoc]. *)
Definition create_testing_readme (unwritable : path -> bool)
    (self : PromotionMetadata.t) (fs : gmap path content) (target_dir : path)
  : exc (gmap path content) :=
  let summary := PromotionMetadata.qa_validation_summary self in
  security <- get2 summary "security" "security_score" (JStr "N/A") ;;
  compliance <- get2 summary "compliance" "compliance_pass_rate" (JStr "N/A") ;;
  quality <- get2 summary "quality" "quality_score" (JStr "N/A") ;;
  performance <- get2 summary "performance" "performance_score" (JStr "N/A") ;;
  let readme_path := target_dir // "README.md" in
  write_file unwritable fs readme_path
    (ReadmeDoc (PromotionMetadata.promotion_timestamp self)
       (default 0 (PromotionMetadata.successfully_promoted self))
       [security; compliance; quality; performance]).

(** [main] of [promote_to_testing.py]. *)
Module promote_to_testing_py.
Definition main (now : string) (unwritable : path -> bool) (st_size : path -> Z)
    (fs : gmap path content) (source_dir target_dir qa_results : path)
  : gmap path content * run :=
  let promoter := new_promoter now in
  match promote_templates unwritable st_size promoter fs source_dir target_dir
          qa_results with
  | (_, fs', Raise e) => (fs', Uncaught e)
  | (promoter', fs', Ok true) =>
      match create_testing_readme unwritable promoter' fs' target_dir with
      | Raise e => (fs', Uncaught e)
      | Ok fs'' => (fs'', Exit 0)
      end
  | (_, fs', Ok false) => (fs', Exit 1)
  end.
End promote_to_testing_py.

(** ** Report shapes and example file systems *)

(** A Bandit or Semgrep report with no findings: a dict whose [results]
    list is empty (or left out). *)
Definition no_results (report : json) : Prop :=
  ∃ fields, report = JObj fields
            ∧ (assoc "results" fields = None
               ∨ assoc "results" fields = Some (JArr [])).

(** A Safety report with no vulnerabilities: the empty list. *)
Definition no_vulnerabilities (report : json) : Prop := report = JArr [].

(** How many of the three tools added a term to [security_score]. *)
Definition contributing_tools (fs : gmap path content) (security_results_dir : path)
  : nat :=
  length (security_terms fs security_results_dir).

(** The last line of [avg_quality_score]: did the score fall to its
    default, the [else 85] branch? *)
Definition quality_defaulted (quality_score : Q) : bool := Qle_bool quality_score 0.

Definition is_number (x : json) : bool :=
  match x with
  | JNum _ | JBool _ => true
  | _ => false
  end.

(** A category record the status checker can print: absent, or a dict with
    a [passed] entry and a score that is a number or left out. *)
Definition category_ok (fields : list (string * json)) (cat score_key : string)
  : bool :=
  match assoc cat fields with
  | None => true
  | Some (JObj record) =>
      bool_decide (is_Some (assoc "passed" record))
      && match assoc score_key record with
         | None => true
         | Some v => is_number v
         end
  | Some _ => false
  end.

Definition categories_ok (fields : list (string * json)) : bool :=
  category_ok fields "security" "security_score"
  && category_ok fields "compliance" "compliance_pass_rate"
  && category_ok fields "quality" "quality_score"
  && category_ok fields "performance" "performance_score".

Definition clean_report : json := JObj [("results", JArr [])].

Definition passed_check : json := JObj [("status", JStr "PASSED")].

(** Result directories in which every gate passes. *)
Definition fs_all_green : gmap path content :=
  list_to_map
    [(["sec"; "bandit-report.json"], JsonDoc clean_report);
     (["sec"; "safety-report.json"], JsonDoc (JArr []));
     (["sec"; "semgrep-report.json"], JsonDoc clean_report);
     (["comp"; "gdpr-compliance.json"], JsonDoc passed_check);
     (["comp"; "hipaa-compliance.json"], JsonDoc passed_check);
     (["comp"; "soc2-compliance.json"], JsonDoc (JObj [("compliant", JBool true)]));
     (["comp"; "iso27001-compliance.json"], JsonDoc passed_check);
     (["qual"; "complexity-report.json"],
      JsonDoc (JObj [("averageComplexity", JNum 1)]));
     (["qual"; "technical-debt.json"], JsonDoc (JObj [("debt_score", JNum 90)]))].

(** Only the Bandit report is there, and it is clean. *)
Definition fs_bandit_only : gmap path content :=
  {[ ["sec"; "bandit-report.json"] := JsonDoc clean_report ]}.

(** A performance baseline that is not JSON. *)
Definition fs_bad_baseline : gmap path content :=
  {[ ["perf"; "performance-baseline.json"] := Raw "avg_response_time: 120" ]}.

(** Only the complexity report is there. *)
Definition fs_complexity_only : gmap path content :=
  {[ ["qual"; "complexity-report.json"] :=
       JsonDoc (JObj [("averageComplexity", JNum 4)]) ]}.

(** Only the technical debt report is there, with a negative score. *)
Definition fs_negative_debt : gmap path content :=
  {[ ["qual"; "technical-debt.json"] :=
       JsonDoc (JObj [("debt_score", JNum (-10))]) ]}.


(** A QA stage with two templates and a failed evaluation. *)
Definition fs_failed_qa : gmap path content :=
  list_to_map
    [(["qa"; "a.md"], Raw "# a");
     (["qa"; "sub"; "b.md"], Raw "# b");
     (["out"; "evaluation.json"],
      JsonDoc (JObj [("overall_status", JStr "FAILED")]))].

(** A passed evaluation, and a QA stage without any template. *)
Definition fs_no_templates : gmap path content :=
  list_to_map
    [(["qa"; "notes.txt"], Raw "nothing to promote");
     (["out"; "evaluation.json"],
      JsonDoc (JObj [("overall_status", JStr "PASSED")]))].

(** The operating system refuses nothing. *)
Definition all_writable : path -> bool := fun _ => false.

(** Sizes as [stat] would report them for the text files of the examples. *)
Definition text_size (fs : gmap path content) (p : path) : Z :=
  match fs !! p with
  | Some (Raw text) => Z.of_nat (String.length text)
  | _ => 0
  end.

(** ** Report contents, for the properties of the evaluators *)

(** The severity a Bandit finding carries. *)
Definition issue_severity (finding : list (string * json)) : json :=
  default JNull (assoc "issue_severity" finding).

(** How many findings carry the severity [s]. *)
Definition severity_count (s : string) (findings : list (list (string * json)))
  : Z :=
  Z.of_nat (length (filter (fun f => py_eq_str (issue_severity f) s = true) findings)).

(** A Bandit report holding two HIGH, one MEDIUM and one LOW finding. *)
Definition fs_bandit_findings : gmap path content :=
  {[ ["sec"; "bandit-report.json"] :=
       JsonDoc (JObj [("results", JArr (map JObj
         [[("issue_severity", JStr "HIGH")];
          [("issue_severity", JStr "MEDIUM"); ("test_id", JStr "B101")];
          [("issue_severity", JStr "LOW")];
          [("issue_severity", JStr "HIGH")]]))]) ]}.

(** A Safety report listing two vulnerable packages. *)
Definition fs_safety_two : gmap path content :=
  {[ ["sec"; "safety-report.json"] :=
       JsonDoc (JArr [JArr [JStr "pkg-a"]; JArr [JStr "pkg-b"]]) ]}.

(** Does a compliance report say the check passed: a dict whose [status]
    is the string PASSED or whose [compliant] is true in a condition? *)
Definition reports_pass (report : json) : bool :=
  match report with
  | JObj fields =>
      py_eq_str (default JNull (assoc "status" fields)) "PASSED"
      || truthy (default (JBool false) (assoc "compliant" fields))
  | _ => false
  end.

(** Does the compliance check [check_file] count as passed: its file holds
    JSON text and that report says so? *)
Definition check_counts (fs : gmap path content) (compliance_results_dir : path)
    (check_file : string) : bool :=
  match fs !! (compliance_results_dir // check_file) with
  | Some (JsonDoc report) => reports_pass report
  | _ => false
  end.

(** Three of the four compliance checks pass; the SOC 2 file is missing. *)
Definition fs_three_checks : gmap path content :=
  list_to_map
    [(["comp"; "gdpr-compliance.json"], JsonDoc passed_check);
     (["comp"; "hipaa-compliance.json"], JsonDoc passed_check);
     (["comp"; "iso27001-compliance.json"], JsonDoc passed_check)].

(** Both quality reports are there and neither is JSON; the coverage
    summary holds a figure that is not a number. *)
Definition fs_quality_garbled : gmap path content :=
  list_to_map
    [(["qual"; "complexity-report.json"], Raw "<html>");
     (["qual"; "technical-debt.json"], Raw "");
     (["qual"; "coverage"; "coverage-summary.json"],
      JsonDoc (JObj [("total", JObj [("lines", JObj [("pct", JStr "n/a")])])]))].

(** Good quality reports beside a coverage summary whose figure is not a
    number. *)
Definition fs_coverage_not_a_number : gmap path content :=
  list_to_map
    [(["qual"; "complexity-report.json"],
      JsonDoc (JObj [("averageComplexity", JNum 1)]));
     (["qual"; "technical-debt.json"], JsonDoc (JObj [("debt_score", JNum 90)]));
     (["qual"; "coverage"; "coverage-summary.json"],
      JsonDoc (JObj [("total", JObj [("lines", JObj [("pct", JStr "n/a")])])]))].

(** A baseline file that records none of the three metrics. *)
Definition fs_empty_baseline : gmap path content :=
  {[ ["perf"; "performance-baseline.json"] := JsonDoc (JObj []) ]}.

(** A baseline whose response time is a string. *)
Definition fs_text_metric : gmap path content :=
  {[ ["perf"; "performance-baseline.json"] :=
       JsonDoc (JObj [("avg_response_time", JStr "120ms")]) ]}.

(** A passed evaluation whose security record is not a dict, beside one
    template. *)
Definition fs_odd_security : gmap path content :=
  list_to_map
    [(["qa"; "a.md"], Raw "# a");
     (["out"; "evaluation.json"],
      JsonDoc (JObj [("overall_status", JStr "PASSED");
                     ("security", JStr "n/a")]))].

(** A QA stage with two templates and a passed evaluation. *)
Definition fs_passed_qa : gmap path content :=
  <[ ["out"; "evaluation.json"] :=
       JsonDoc (JObj [("overall_status", JStr "PASSED")]) ]> fs_failed_qa.

(** Is the category record of an evaluation a dict, or left out? *)
Definition category_is_dict (fields : list (string * json)) (cat : string) : bool :=
  match assoc cat fields with
  | None | Some (JObj _) => true
  | Some _ => false
  end.

(** A coverage directory with a summary that is not JSON text and a second
    one in the usual shape. *)
Definition fs_two_summaries : gmap path content :=
  list_to_map
    [(["qual"; "coverage"; "coverage-summary.json"],
      JsonDoc (JObj [("total", JObj [("lines", JObj [("pct", JNum 72)])])]));
     (["qual"; "coverage"; "summary.json"], Raw "truncated")].

(** An evaluation in which the compliance gate alone failed, and a file
    system holding it as written by [json.dump]. *)
Definition sample_evaluation : EvaluationResult.t :=
  EvaluationResult.mk
    (SecurityRecord.mk 100 0 true)
    (ComplianceRecord.mk 75 3 4 false)
    (QualityRecord.mk (185 # 2) (JNum 85) true)
    default_performance
    "FAILED"
    "2025-01-01T00:00:00".

Definition fs_sample_evaluation : gmap path content :=
  {[ ["out"; "evaluation.json"] := JsonDoc (json_of_evaluation sample_evaluation) ]}.

(** ** Numbers that fit a float *)





(** The place [shutil.copy2] writes to: inside the destination when that
    is a directory. *)
Definition copy_destination (fs : gmap path content) (source_path target_path : path)
  : path :=
  if is_dir fs target_path then target_path // name source_path else target_path.

(** A quality directory with a debt report alone, and a coverage summary
    whose figure is not a number. *)
Definition fs_low_quality_odd_coverage : gmap path content :=
  list_to_map
    [(["qual"; "technical-debt.json"], JsonDoc (JObj [("debt_score", JNum 60)]));
     (["qual"; "coverage"; "coverage-summary.json"],
      JsonDoc (JObj [("total", JObj [("lines", JObj [("pct", JStr "n/a")])])]))].



(** * Properties *)

(** ** Sanity checks of the path functions *)

Example suffix_report : suffix ["qa"; "guide.v2.md"] = ".md".
Proof. reflexivity. Qed.

Example stem_report : stem ["qa"; "guide.v2.md"] = "guide.v2".
Proof. reflexivity. Qed.

Example suffix_hidden : suffix ["qa"; ".md"] = "".
Proof. reflexivity. Qed.

Example with_suffix_md :
  with_suffix ["t"; "a"; "guide.md"] ".json" = Ok ["t"; "a"; "guide.json"].
Proof. reflexivity. Qed.

(** ** Files and directories *)

Lemma file_exists (fs : gmap path content) (p : path) (c : content) :
  fs !! p = Some c -> path_exists fs p = true.
Proof.
  intros H. unfold path_exists, is_file. rewrite H.
  rewrite bool_decide_eq_true_2; [reflexivity | eauto].
Qed.

Lemma json_load_doc (fs : gmap path content) (p : path) (j : json) :
  fs !! p = Some (JsonDoc j) -> json_load fs p = Ok j.
Proof. intros H. unfold json_load, open_file. rewrite H. reflexivity. Qed.

(** ** The security evaluator *)

Lemma count_where_nonneg (p : json -> exc bool) (items : list json) (n : Z) :
  count_where p items = Ok n -> 0 <= n.
Proof.
  revert n. induction items as [|r rest IH]; intros n; simpl.
  - intros [= <-]. lia.
  - destruct (p r) as [b|e]; simpl; [|discriminate].
    destruct (count_where p rest) as [m|e]; simpl; [|discriminate].
    specialize (IH m eq_refl). intros [= <-]. destruct b; lia.
Qed.

(** Every term a tool adds to the score is between 0 and 100. *)
Lemma bandit_term_range fs d s v :
  bandit_term fs d = Some (s, v) -> 0 <= s <= 100.
Proof.
  unfold bandit_term. destruct (path_exists _ _); [|discriminate].
  destruct (bandit_try _ _) as [[s' v']|e] eqn:Htry.
  - intros [= <- <-]. unfold bandit_try in Htry.
    destruct (json_load _ _) as [j|]; simpl in Htry; [|discriminate].
    destruct (py_get j _ _) as [res|]; simpl in Htry; [|discriminate].
    destruct (py_iter res) as [rs|]; simpl in Htry; [|discriminate].
    destruct (count_where _ rs) as [h|] eqn:Hh; simpl in Htry; [|discriminate].
    destruct (count_where _ rs) as [m|] eqn:Hm in Htry; simpl in Htry;
      [|discriminate].
    apply count_where_nonneg in Hh, Hm. injection Htry as <- _. lia.
  - intros [= <- <-]. lia.
Qed.

Lemma safety_term_range fs d s v :
  safety_term fs d = Some (s, v) -> 0 <= s <= 100.
Proof.
  unfold safety_term. destruct (path_exists _ _); [|discriminate].
  destruct (safety_try _ _) as [[s' v']|e] eqn:Htry.
  - intros [= <- <-]. unfold safety_try in Htry.
    destruct (json_load _ _) as [j|]; simpl in Htry; [|discriminate].
    injection Htry as <- _. destruct j; lia.
  - intros [= <- <-]. lia.
Qed.

Lemma semgrep_term_range fs d s v :
  semgrep_term fs d = Some (s, v) -> 0 <= s <= 100.
Proof.
  unfold semgrep_term. destruct (path_exists _ _); [|discriminate].
  destruct (semgrep_try _ _) as [[s' v']|e] eqn:Htry.
  - intros [= <- <-]. unfold semgrep_try in Htry.
    destruct (json_load _ _) as [j|]; simpl in Htry; [|discriminate].
    destruct (py_get j _ _) as [res|]; simpl in Htry; [|discriminate].
    destruct (py_iter res) as [rs|]; simpl in Htry; [|discriminate].
    destruct (count_where _ rs) as [h|] eqn:Hh; simpl in Htry; [|discriminate].
    apply count_where_nonneg in Hh. injection Htry as <- _. lia.
  - intros [= <- <-]. lia.
Qed.

(** The accumulator [security_score] is the sum of the terms added. *)
Lemma security_totals_sum fs d :
  fst (security_totals fs d) = sumZ (security_terms fs d).
Proof.
  unfold security_totals, security_terms, add_term, sumZ.
  destruct (bandit_term fs d) as [[s1 v1]|];
    destruct (safety_term fs d) as [[s2 v2]|];
    destruct (semgrep_term fs d) as [[s3 v3]|]; simpl; lia.
Qed.

Lemma security_terms_nonneg fs d : 0 <= sumZ (security_terms fs d).
Proof.
  unfold security_terms, sumZ.
  destruct (bandit_term fs d) as [[s1 v1]|] eqn:H1;
    destruct (safety_term fs d) as [[s2 v2]|] eqn:H2;
    destruct (semgrep_term fs d) as [[s3 v3]|] eqn:H3; simpl;
    try apply bandit_term_range in H1;
    try apply safety_term_range in H2;
    try apply semgrep_term_range in H3; lia.
Qed.

Lemma contributing_tools_le_3 fs d : (contributing_tools fs d <= 3)%nat.
Proof.
  unfold contributing_tools, security_terms.
  destruct (bandit_term fs d) as [[s1 v1]|];
    destruct (safety_term fs d) as [[s2 v2]|];
    destruct (semgrep_term fs d) as [[s3 v3]|]; simpl; lia.
Qed.

(** The divisor of the average is 3, whatever the number of terms. *)
Lemma security_score_over_3 fs d :
  (SecurityRecord.security_score (evaluate_security_results fs d)
   == inject_Z (sumZ (security_terms fs d)) / 3)%Q.
Proof.
  pose proof (security_totals_sum fs d) as Hsum.
  pose proof (security_terms_nonneg fs d) as Hnn.
  unfold evaluate_security_results.
  destruct (security_totals fs d) as [s v]. simpl in Hsum. subst s. simpl.
  destruct (0 <? sumZ (security_terms fs d)) eqn:Hpos.
  - reflexivity.
  - apply Z.ltb_ge in Hpos.
    replace (sumZ (security_terms fs d)) with 0 by lia. reflexivity.
Qed.

(** C4: the security score is the sum of the per-tool scores divided by 3,
    however many of the three tool reports were present; one report alone
    is still divided by 3. *)
Theorem C4_security_score_divisor_is_three (fs : gmap path content) (d : path) :
  (SecurityRecord.security_score (evaluate_security_results fs d)
   == inject_Z (sumZ (security_terms fs d)) / 3)%Q.
Proof. apply security_score_over_3. Qed.

Example only_bandit_is_divided_by_three :
  security_terms fs_bandit_only ["sec"] = [100]
  ∧ SecurityRecord.security_score
      (evaluate_security_results fs_bandit_only ["sec"]) = (100 # 3)%Q.
Proof. split; reflexivity. Qed.

(** C5, as stated, fails: with the Bandit report alone (one contributing
    tool, score 100) the average is 100/3, not 100/1. *)
Lemma C5_counterexample :
  let r := evaluate_security_results fs_bandit_only ["sec"] in
  let k := contributing_tools fs_bandit_only ["sec"] in
  (1 <= k)%nat
  ∧ ¬ (SecurityRecord.security_score r
       == inject_Z (sumZ (security_terms fs_bandit_only ["sec"]))
          / inject_Z (Z.of_nat k))%Q.
Proof.
  split.
  - vm_compute. lia.
  - intros H. vm_compute in H. discriminate H.
Qed.

(** C5, amended: when at least one tool contributes a term, the average
    security score equals the sum of the per-tool scores divided by the
    number of contributing tools exactly when all three tools contributed
    (or the sum is 0); the divisor is the fixed number of tools, 3. *)
Theorem C5_average_over_contributing_tools (fs : gmap path content) (d : path) :
  (1 <= contributing_tools fs d)%nat ->
  (SecurityRecord.security_score (evaluate_security_results fs d)
   == inject_Z (sumZ (security_terms fs d))
      / inject_Z (Z.of_nat (contributing_tools fs d)))%Q
  <-> (contributing_tools fs d = 3%nat ∨ sumZ (security_terms fs d) = 0).
Proof.
  intros Hk. pose proof (contributing_tools_le_3 fs d) as Hle.
  rewrite security_score_over_3.
  generalize dependent (contributing_tools fs d). intros k Hk Hle.
  generalize (sumZ (security_terms fs d)). intros s.
  assert (k = 1 ∨ k = 2 ∨ k = 3)%nat as [-> | [-> | ->]] by lia;
    unfold Qeq, Qdiv, Qmult, Qinv, inject_Z; simpl; lia.
Qed.

Lemma C5_average_over_contributing_tools_witness :
  (1 <= contributing_tools fs_all_green ["sec"])%nat
  ∧ ((SecurityRecord.security_score (evaluate_security_results fs_all_green ["sec"])
      == inject_Z (sumZ (security_terms fs_all_green ["sec"]))
         / inject_Z (Z.of_nat (contributing_tools fs_all_green ["sec"])))%Q
     <-> (contributing_tools fs_all_green ["sec"] = 3%nat
          ∨ sumZ (security_terms fs_all_green ["sec"]) = 0)).
Proof.
  split.
  - vm_compute. lia.
  - apply (C5_average_over_contributing_tools fs_all_green ["sec"]).
    vm_compute. lia.
Defined.

Lemma no_results_get (report : json) :
  no_results report -> py_get report "results" (JArr []) = Ok (JArr []).
Proof.
  intros (fields & -> & [H | H]); simpl; rewrite H; reflexivity.
Qed.

Lemma bandit_term_clean fs d report :
  fs !! (d // "bandit-report.json") = Some (JsonDoc report) ->
  no_results report ->
  bandit_term fs d = Some (100, 0).
Proof.
  intros Hf Hr. unfold bandit_term.
  rewrite (file_exists _ _ _ Hf). unfold bandit_try.
  rewrite (json_load_doc _ _ _ Hf). simpl.
  rewrite (no_results_get _ Hr). reflexivity.
Qed.

Lemma safety_term_clean fs d report :
  fs !! (d // "safety-report.json") = Some (JsonDoc report) ->
  no_vulnerabilities report ->
  safety_term fs d = Some (100, 0).
Proof.
  intros Hf ->. unfold safety_term.
  rewrite (file_exists _ _ _ Hf). unfold safety_try.
  rewrite (json_load_doc _ _ _ Hf). reflexivity.
Qed.

Lemma semgrep_term_clean fs d report :
  fs !! (d // "semgrep-report.json") = Some (JsonDoc report) ->
  no_results report ->
  semgrep_term fs d = Some (100, 0).
Proof.
  intros Hf Hr. unfold semgrep_term.
  rewrite (file_exists _ _ _ Hf). unfold semgrep_try.
  rewrite (json_load_doc _ _ _ Hf). simpl.
  rewrite (no_results_get _ Hr). reflexivity.
Qed.

(** C8: when the three tool reports exist, parse and hold no finding and
    no vulnerability, the security evaluator returns the score 100.0, the
    vulnerability count 0 and [passed = true]. *)
Theorem C8_clean_reports_score_100 (fs : gmap path content) (d : path)
    (bandit safety semgrep : json) :
  fs !! (d // "bandit-report.json") = Some (JsonDoc bandit) ->
  fs !! (d // "safety-report.json") = Some (JsonDoc safety) ->
  fs !! (d // "semgrep-report.json") = Some (JsonDoc semgrep) ->
  no_results bandit ->
  no_vulnerabilities safety ->
  no_results semgrep ->
  let r := evaluate_security_results fs d in
  (SecurityRecord.security_score r == 100)%Q
  ∧ SecurityRecord.vulnerability_count r = 0
  ∧ SecurityRecord.passed r = true.
Proof.
  intros Hb Hs Hg Cb Cs Cg r. subst r.
  unfold evaluate_security_results, security_totals.
  rewrite (bandit_term_clean _ _ _ Hb Cb), (safety_term_clean _ _ _ Hs Cs),
    (semgrep_term_clean _ _ _ Hg Cg).
  simpl. repeat split; reflexivity.
Qed.

Lemma C8_clean_reports_score_100_witness :
  fs_all_green !! (["sec"] // "bandit-report.json") = Some (JsonDoc clean_report)
  ∧ fs_all_green !! (["sec"] // "safety-report.json") = Some (JsonDoc (JArr []))
  ∧ fs_all_green !! (["sec"] // "semgrep-report.json") = Some (JsonDoc clean_report)
  ∧ no_results clean_report
  ∧ no_vulnerabilities (JArr [])
  ∧ (let r := evaluate_security_results fs_all_green ["sec"] in
     (SecurityRecord.security_score r == 100)%Q
     ∧ SecurityRecord.vulnerability_count r = 0
     ∧ SecurityRecord.passed r = true).
Proof.
  assert (no_results clean_report) as Hclean.
  { exists [("results", JArr [])]. split; [reflexivity | right; reflexivity]. }
  split; [reflexivity|]. split; [reflexivity|]. split; [reflexivity|].
  split; [exact Hclean|]. split; [reflexivity|].
  apply (C8_clean_reports_score_100 fs_all_green ["sec"]
           clean_report (JArr []) clean_report);
    first [reflexivity | exact Hclean].
Defined.

(** ** The performance evaluator *)

(** C9: a performance baseline that exists but does not parse as JSON gives
    exactly the result of an absent baseline: score 80, baseline met,
    passed.  A malformed baseline cannot fail the performance gate. *)
Theorem C9_unparsable_baseline_is_default (fs fs0 : gmap path content)
    (d d0 : path) (c : content) (e : pyexn) :
  fs !! (d // "performance-baseline.json") = Some c ->
  json_parse c = Raise e ->
  path_exists fs0 (d0 // "performance-baseline.json") = false ->
  let r := evaluate_performance_results fs d in
  r = evaluate_performance_results fs0 d0
  ∧ PerformanceRecord.performance_score r = 80%Q
  ∧ PerformanceRecord.baseline_met r = true
  ∧ PerformanceRecord.passed r = true.
Proof.
  intros Hf Hparse Habsent r. subst r.
  unfold evaluate_performance_results.
  rewrite (file_exists _ _ _ Hf), Habsent.
  unfold performance_try, json_load, open_file. rewrite Hf. simpl.
  rewrite Hparse. simpl. repeat split; reflexivity.
Qed.

Lemma C9_unparsable_baseline_is_default_witness :
  fs_bad_baseline !! (["perf"] // "performance-baseline.json")
    = Some (Raw "avg_response_time: 120")
  ∧ json_parse (Raw "avg_response_time: 120") = Raise JSONDecodeError
  ∧ path_exists ∅ (["perf"] // "performance-baseline.json") = false
  ∧ (let r := evaluate_performance_results fs_bad_baseline ["perf"] in
     r = evaluate_performance_results ∅ ["perf"]
     ∧ PerformanceRecord.performance_score r = 80%Q
     ∧ PerformanceRecord.baseline_met r = true
     ∧ PerformanceRecord.passed r = true).
Proof.
  split; [reflexivity|]. split; [reflexivity|]. split; [reflexivity|].
  apply (C9_unparsable_baseline_is_default fs_bad_baseline ∅ ["perf"] ["perf"]
           (Raw "avg_response_time: 120") JSONDecodeError); reflexivity.
Defined.

(** ** The quality evaluator *)

Lemma avg_quality_score_pos (q : Q) :
  (0 < q)%Q -> avg_quality_score q = (q / 2)%Q.
Proof.
  intros Hq. unfold avg_quality_score.
  destruct (Qle_bool q 0) eqn:E; [|reflexivity].
  apply Qle_bool_iff in E. exfalso. exact (Qlt_not_le _ _ Hq E).
Qed.

Lemma avg_quality_score_nonpos (q : Q) :
  (q <= 0)%Q -> avg_quality_score q = 85%Q.
Proof.
  intros Hq. unfold avg_quality_score.
  apply Qle_bool_iff in Hq. rewrite Hq. reflexivity.
Qed.

Lemma evaluate_quality_results_score fs d r :
  evaluate_quality_results fs d = Ok r ->
  QualityRecord.quality_score r = avg_quality_score (quality_total fs d).
Proof.
  unfold evaluate_quality_results.
  destruct (Qle_bool _ _).
  - destruct (as_num _); simpl; [|discriminate]. intros [= <-]. reflexivity.
  - simpl. intros [= <-]. reflexivity.
Qed.

(** The evaluator returns a record whenever the coverage figure is a
    number, which it is when there is no coverage directory. *)
Lemma evaluate_quality_results_returns fs d c :
  as_num (coverage_of fs d) = Ok c ->
  ∃ r, evaluate_quality_results fs d = Ok r.
Proof.
  intros Hc. unfold evaluate_quality_results. rewrite Hc. simpl.
  destruct (Qle_bool _ _); simpl; eauto.
Qed.

Lemma evaluate_quality_results_no_coverage fs d :
  path_exists fs (d // "coverage") = false ->
  ∃ r, evaluate_quality_results fs d = Ok r.
Proof.
  intros H. apply (evaluate_quality_results_returns fs d 85%Q).
  unfold coverage_of. rewrite H. reflexivity.
Qed.

Lemma complexity_try_nonneg fs f c : complexity_try fs f = Ok c -> (0 <= c)%Q.
Proof.
  unfold complexity_try.
  destruct (json_load _ _) as [j|]; simpl; [|discriminate].
  destruct (py_get _ _ _) as [a|]; simpl; [|discriminate].
  destruct (as_num a) as [x|]; simpl; [|discriminate].
  intros [= <-]. unfold Qmax0.
  destruct (Qle_bool _ 0) eqn:E.
  - apply Qle_refl.
  - apply Qlt_le_weak, Qnot_le_lt. intros H.
    apply Qle_bool_iff in H. congruence.
Qed.

(** C10, as stated, fails: with a technical debt report whose [debt_score]
    is -10 and no complexity report, the total contribution is -10, not 0,
    and the score still falls to the default 85. *)
Lemma C10_counterexample :
  let total := quality_total fs_negative_debt ["qual"] in
  ∃ r, evaluate_quality_results fs_negative_debt ["qual"] = Ok r
       ∧ quality_defaulted total = true
       ∧ QualityRecord.quality_score r = 85%Q
       ∧ ¬ (total == 0)%Q.
Proof.
  eexists. split; [vm_compute; reflexivity|].
  split; [reflexivity|]. split; [reflexivity|].
  intros H. vm_compute in H. discriminate H.
Qed.

(** C10, amended: a missing quality report adds nothing to the sum and the
    divisor stays 2, so with the complexity report alone the score is the
    complexity-derived score halved; the score falls to the default 85
    when the total contribution is not positive, that is 0 (both reports
    missing, for one) or negative. *)
Theorem C10_quality_score_halved_or_default (fs : gmap path content) (d : path)
    (r : QualityRecord.t) :
  evaluate_quality_results fs d = Ok r ->
  let total := quality_total fs d in
  let score := QualityRecord.quality_score r in
  let complexity_file := d // "complexity-report.json" in
  let debt_file := d // "technical-debt.json" in
  (path_exists fs complexity_file = false -> complexity_term fs d = None)
  ∧ (path_exists fs debt_file = false -> debt_term fs d = None)
  ∧ (total == default 0 (complexity_term fs d) + default 0 (debt_term fs d))%Q
  ∧ ((0 < total)%Q -> score = (total / 2)%Q)
  ∧ ((total <= 0)%Q -> score = 85%Q)
  ∧ (∀ c, path_exists fs complexity_file = true ->
          complexity_try fs complexity_file = Ok c ->
          path_exists fs debt_file = false ->
          ((0 < c)%Q -> (score == c / 2)%Q) ∧ ((c == 0)%Q -> score = 85%Q))
  ∧ (path_exists fs complexity_file = false ->
     path_exists fs debt_file = false -> score = 85%Q).
Proof.
  intros Hr total score complexity_file debt_file.
  pose proof (evaluate_quality_results_score _ _ _ Hr) as Hscore.
  fold score total in Hscore.
  assert (path_exists fs complexity_file = false -> complexity_term fs d = None)
    as Hc.
  { intros H. unfold complexity_term. fold complexity_file. rewrite H.
    reflexivity. }
  assert (path_exists fs debt_file = false -> debt_term fs d = None) as Hd.
  { intros H. unfold debt_term. fold debt_file. rewrite H. reflexivity. }
  split; [exact Hc|]. split; [exact Hd|].
  split.
  { subst total. unfold quality_total.
    destruct (complexity_term fs d), (debt_term fs d); simpl; ring. }
  split.
  { intros H. rewrite Hscore. apply avg_quality_score_pos, H. }
  split.
  { intros H. rewrite Hscore. apply avg_quality_score_nonpos, H. }
  split.
  { intros c Hex Htry Hno.
    assert (total = (0 + c)%Q) as Htotal.
    { subst total. unfold quality_total, complexity_term.
      fold complexity_file. rewrite Hex, Htry, (Hd Hno). reflexivity. }
    split.
    - intros Hpos. rewrite Hscore, Htotal.
      rewrite avg_quality_score_pos by (rewrite Qplus_0_l; exact Hpos).
      rewrite Qplus_0_l. reflexivity.
    - intros Hzero. rewrite Hscore, Htotal.
      apply avg_quality_score_nonpos. rewrite Qplus_0_l, Hzero.
      apply Qle_refl. }
  intros Hnc Hnd. rewrite Hscore. subst total. unfold quality_total.
  rewrite (Hc Hnc), (Hd Hnd). reflexivity.
Qed.

Lemma C10_quality_score_halved_or_default_witness :
  ∃ r, evaluate_quality_results fs_complexity_only ["qual"] = Ok r
  ∧ (let fs := fs_complexity_only in
     let d := ["qual"] in
     let total := quality_total fs d in
     let score := QualityRecord.quality_score r in
     let complexity_file := d // "complexity-report.json" in
     let debt_file := d // "technical-debt.json" in
     (path_exists fs complexity_file = false -> complexity_term fs d = None)
     ∧ (path_exists fs debt_file = false -> debt_term fs d = None)
     ∧ (total == default 0 (complexity_term fs d) + default 0 (debt_term fs d))%Q
     ∧ ((0 < total)%Q -> score = (total / 2)%Q)
     ∧ ((total <= 0)%Q -> score = 85%Q)
     ∧ (∀ c, path_exists fs complexity_file = true ->
             complexity_try fs complexity_file = Ok c ->
             path_exists fs debt_file = false ->
             ((0 < c)%Q -> (score == c / 2)%Q) ∧ ((c == 0)%Q -> score = 85%Q))
     ∧ (path_exists fs complexity_file = false ->
        path_exists fs debt_file = false -> score = 85%Q)).
Proof.
  eexists. split.
  - vm_compute. reflexivity.
  - apply (C10_quality_score_halved_or_default fs_complexity_only ["qual"]).
    vm_compute. reflexivity.
Defined.

Example complexity_alone_is_halved :
  complexity_try fs_complexity_only ["qual"; "complexity-report.json"] = Ok 80%Q
  ∧ ∃ r, evaluate_quality_results fs_complexity_only ["qual"] = Ok r
         ∧ (QualityRecord.quality_score r == 40)%Q.
Proof.
  split; [reflexivity|]. eexists. split; [vm_compute; reflexivity|]. reflexivity.
Qed.

(** ** The gate evaluator *)

Lemma all_passed_four (s c q p : bool) :
  all_passed [s; c; q; p] = true <-> s = true ∧ c = true ∧ q = true ∧ p = true.
Proof. destruct s, c, q, p; simpl; intuition congruence. Qed.

Lemma evaluate_all_gates_inv now fs sd cd qd pd r :
  evaluate_all_gates now fs sd cd qd pd = Ok r ->
  EvaluationResult.security r = evaluate_security_results fs sd
  ∧ EvaluationResult.compliance r = evaluate_compliance_results fs cd
  ∧ evaluate_quality_results fs qd = Ok (EvaluationResult.quality r)
  ∧ EvaluationResult.performance r = evaluate_performance_results fs pd
  ∧ EvaluationResult.overall_status r =
      if all_passed
           [SecurityRecord.passed (EvaluationResult.security r);
            ComplianceRecord.passed (EvaluationResult.compliance r);
            QualityRecord.passed (EvaluationResult.quality r);
            PerformanceRecord.passed (EvaluationResult.performance r)]
      then "PASSED" else "FAILED".
Proof.
  unfold evaluate_all_gates.
  destruct (evaluate_quality_results fs qd) as [q|]; cbn [bind format_1f];
    [|discriminate].
  destruct (format_1f (QualityRecord.coverage_score q)); cbn [bind];
    [|discriminate].
  intros [= <-]. simpl. repeat split; reflexivity.
Qed.

(** The evaluation returns a result whenever the quality evaluator does
    and the coverage figure can be printed. *)
Lemma evaluate_all_gates_returns now fs sd cd qd pd q :
  evaluate_quality_results fs qd = Ok q ->
  is_number (QualityRecord.coverage_score q) = true ->
  ∃ r, evaluate_all_gates now fs sd cd qd pd = Ok r.
Proof.
  intros Hq Hcov. unfold evaluate_all_gates. rewrite Hq. cbn [bind format_1f].
  destruct (QualityRecord.coverage_score q); try discriminate;
    cbn [bind format_1f]; eauto.
Qed.

(** C1: the overall status of an evaluation is PASSED if and only if the
    four category records (security, compliance, quality, performance),
    which are the ones the four evaluators returned, all have [passed]
    true; every other combination of the four flags gives FAILED. *)
Theorem C1_overall_status_iff_all_passed (now : string) (fs : gmap path content)
    (sd cd qd pd : path) (r : EvaluationResult.t) :
  evaluate_all_gates now fs sd cd qd pd = Ok r ->
  let s := SecurityRecord.passed (EvaluationResult.security r) in
  let c := ComplianceRecord.passed (EvaluationResult.compliance r) in
  let q := QualityRecord.passed (EvaluationResult.quality r) in
  let p := PerformanceRecord.passed (EvaluationResult.performance r) in
  (EvaluationResult.overall_status r = "PASSED"
   <-> s = true ∧ c = true ∧ q = true ∧ p = true)
  ∧ (EvaluationResult.overall_status r = "FAILED"
     <-> ¬ (s = true ∧ c = true ∧ q = true ∧ p = true))
  ∧ EvaluationResult.security r = evaluate_security_results fs sd
  ∧ EvaluationResult.compliance r = evaluate_compliance_results fs cd
  ∧ evaluate_quality_results fs qd = Ok (EvaluationResult.quality r)
  ∧ EvaluationResult.performance r = evaluate_performance_results fs pd.
Proof.
  intros Hr s c q p.
  destruct (evaluate_all_gates_inv _ _ _ _ _ _ _ Hr)
    as (Hs & Hc & Hq & Hp & Hstatus).
  fold s c q p in Hstatus.
  pose proof (all_passed_four s c q p) as Hall.
  split; [|split; [|tauto]].
  - rewrite Hstatus. destruct (all_passed [s; c; q; p]).
    + tauto.
    + split; [discriminate | intros H; apply Hall in H; discriminate].
  - rewrite Hstatus. destruct (all_passed [s; c; q; p]).
    + split; [discriminate | intros H; exfalso; apply H, Hall; reflexivity].
    + split; [intros _ H; apply Hall in H; discriminate | reflexivity].
Qed.

Lemma C1_overall_status_iff_all_passed_witness :
  ∃ r,
    evaluate_all_gates "2025-01-01T00:00:00" fs_all_green
      ["sec"] ["comp"] ["qual"] ["perf"] = Ok r
    ∧ (let s := SecurityRecord.passed (EvaluationResult.security r) in
       let c := ComplianceRecord.passed (EvaluationResult.compliance r) in
       let q := QualityRecord.passed (EvaluationResult.quality r) in
       let p := PerformanceRecord.passed (EvaluationResult.performance r) in
       (EvaluationResult.overall_status r = "PASSED"
        <-> s = true ∧ c = true ∧ q = true ∧ p = true)
       ∧ (EvaluationResult.overall_status r = "FAILED"
          <-> ¬ (s = true ∧ c = true ∧ q = true ∧ p = true))
       ∧ EvaluationResult.security r = evaluate_security_results fs_all_green ["sec"]
       ∧ EvaluationResult.compliance r
         = evaluate_compliance_results fs_all_green ["comp"]
       ∧ evaluate_quality_results fs_all_green ["qual"]
         = Ok (EvaluationResult.quality r)
       ∧ EvaluationResult.performance r
         = evaluate_performance_results fs_all_green ["perf"]).
Proof.
  eexists. split.
  - vm_compute. reflexivity.
  - apply (C1_overall_status_iff_all_passed "2025-01-01T00:00:00" fs_all_green
             ["sec"] ["comp"] ["qual"] ["perf"]).
    vm_compute. reflexivity.
Defined.

Example all_green_is_passed :
  ∃ r, evaluate_all_gates "2025-01-01T00:00:00" fs_all_green
         ["sec"] ["comp"] ["qual"] ["perf"] = Ok r
       ∧ EvaluationResult.overall_status r = "PASSED".
Proof. eexists. split; [vm_compute; reflexivity | reflexivity]. Qed.

Example bandit_only_is_failed :
  ∃ r, evaluate_all_gates "2025-01-01T00:00:00" fs_bandit_only
         ["sec"] ["comp"] ["qual"] ["perf"] = Ok r
       ∧ EvaluationResult.overall_status r = "FAILED".
Proof. eexists. split; [vm_compute; reflexivity | reflexivity]. Qed.

(** ** The template promoter *)

Lemma py_eq_str_true (x : json) (s : string) :
  py_eq_str x s = true <-> x = JStr s.
Proof.
  destruct x; simpl; try (split; [discriminate | intros [=]]).
  rewrite String.eqb_eq. split; [intros -> | intros [=]]; congruence.
Qed.

Lemma status_not_passed (fields : list (string * json)) (d : json) :
  d ≠ JStr "PASSED" ->
  assoc "overall_status" fields ≠ Some (JStr "PASSED") ->
  py_eq_str (default d (assoc "overall_status" fields)) "PASSED" = false.
Proof.
  intros Hd Hne. apply not_true_is_false. intros H.
  apply py_eq_str_true in H.
  destruct (assoc "overall_status" fields) as [v|]; simpl in H; congruence.
Qed.

(** The promoter changes the file system only behind the gate: after a
    loaded evaluation whose status is PASSED. *)
Lemma promote_templates_changes_need_passed unwritable st_size self fs
    src tgt qa self' fs' res :
  promote_templates unwritable st_size self fs src tgt qa = (self', fs', res) ->
  fs' ≠ fs ->
  ∃ fields, json_load fs qa = Ok (JObj fields)
            ∧ assoc "overall_status" fields = Some (JStr "PASSED").
Proof.
  unfold promote_templates.
  destruct (json_load fs qa) as [j|]; [|intros [= _ <- _]; congruence].
  destruct j as [| | | | |fields]; simpl; try (intros [= _ <- _]; congruence).
  destruct (py_eq_str _ "PASSED") eqn:Hst; simpl;
    [|intros [= _ <- _]; congruence].
  intros _ _. exists fields. split; [reflexivity|].
  apply py_eq_str_true in Hst.
  destruct (assoc "overall_status" fields) as [v|]; simpl in Hst;
    [congruence | discriminate].
Qed.

(** C2: when the QA results file loads and parses and the overall status
    read from it is anything other than PASSED, [promote_templates] stops
    at the gate: the promoter object and the whole file system, the target
    tree included, are as before (no file copied, no sidecar, no summary)
    and the command exits with code 1.  For a dict, the shape every
    evaluation has, the call returns [False]. *)
Theorem C2_failed_status_promotes_nothing (now : string)
    (unwritable : path -> bool) (st_size : path -> Z)
    (self : PromotionMetadata.t) (fs : gmap path content)
    (source_dir target_dir qa_results_file : path) (qa_results : json) :
  fs !! qa_results_file = Some (JsonDoc qa_results) ->
  py_get qa_results "overall_status" JNull ≠ Ok (JStr "PASSED") ->
  let outcome :=
    promote_templates unwritable st_size self fs source_dir target_dir
      qa_results_file in
  let '(fs', run) :=
    promote_to_testing_py.main now unwritable st_size fs source_dir target_dir
      qa_results_file in
  fst outcome = (self, fs)
  ∧ snd outcome ≠ Ok true
  ∧ (∀ fields, qa_results = JObj fields -> snd outcome = Ok false)
  ∧ fs' = fs
  ∧ exit_code run = 1.
Proof.
  intros Hf Hst.
  assert (∀ self0,
            promote_templates unwritable st_size self0 fs source_dir
              target_dir qa_results_file
            = (self0, fs,
               match qa_results with
               | JObj _ => Ok false
               | _ => Raise AttributeError
               end)) as H.
  { intros self0. unfold promote_templates.
    rewrite (json_load_doc _ _ _ Hf).
    destruct qa_results as [| | | | |fields]; try reflexivity.
    simpl in Hst |- *.
    rewrite status_not_passed; [reflexivity | discriminate |].
    intros Heq. apply Hst. rewrite Heq. reflexivity. }
  unfold promote_to_testing_py.main. rewrite !H. simpl.
  destruct qa_results; simpl; repeat split;
    first [reflexivity | discriminate | intros ? [=]].
Qed.

Lemma C2_failed_status_promotes_nothing_witness :
  let qa := ["out"; "evaluation.json"] in
  let qa_results := JObj [("overall_status", JStr "FAILED")] in
  let promoter := new_promoter "2025-01-01T00:00:00" in
  fs_failed_qa !! qa = Some (JsonDoc qa_results)
  ∧ py_get qa_results "overall_status" JNull ≠ Ok (JStr "PASSED")
  ∧ (let outcome :=
       promote_templates all_writable (text_size fs_failed_qa) promoter
         fs_failed_qa ["qa"] ["testing"] qa in
     let '(fs', run) :=
       promote_to_testing_py.main "2025-01-01T00:00:00" all_writable
         (text_size fs_failed_qa) fs_failed_qa ["qa"] ["testing"] qa in
     fst outcome = (promoter, fs_failed_qa)
     ∧ snd outcome ≠ Ok true
     ∧ (∀ fields, qa_results = JObj fields -> snd outcome = Ok false)
     ∧ fs' = fs_failed_qa
     ∧ exit_code run = 1).
Proof.
  intros qa qa_results promoter.
  split; [reflexivity|]. split; [discriminate|].
  apply (C2_failed_status_promotes_nothing "2025-01-01T00:00:00" all_writable
           (text_size fs_failed_qa) promoter fs_failed_qa ["qa"] ["testing"]
           qa qa_results).
  - reflexivity.
  - discriminate.
Defined.

(** A results file that parses to something other than a dict has no
    status to read: [promote_templates] raises, and touches nothing. *)
Lemma promote_templates_not_a_dict unwritable st_size self fs src tgt qa j :
  fs !! qa = Some (JsonDoc j) ->
  (∀ fields, j ≠ JObj fields) ->
  promote_templates unwritable st_size self fs src tgt qa
  = (self, fs, Raise AttributeError).
Proof.
  intros Hf Hj. unfold promote_templates. rewrite (json_load_doc _ _ _ Hf).
  destruct j; try reflexivity. exfalso. eapply Hj. reflexivity.
Qed.

(** C7: with a PASSED evaluation and a source tree in which no template
    file is found, [promote_templates] returns failure, nothing is written,
    and the command exits with code 1. *)
Theorem C7_no_templates_is_failure (now : string)
    (unwritable : path -> bool) (st_size : path -> Z)
    (self : PromotionMetadata.t) (fs : gmap path content)
    (source_dir target_dir qa_results_file : path)
    (fields : list (string * json)) :
  fs !! qa_results_file = Some (JsonDoc (JObj fields)) ->
  assoc "overall_status" fields = Some (JStr "PASSED") ->
  glob_md fs source_dir = [] ->
  promote_templates unwritable st_size self fs source_dir target_dir
    qa_results_file = (self, fs, Ok false)
  ∧ exit_code (snd (promote_to_testing_py.main now unwritable st_size fs
                      source_dir target_dir qa_results_file)) = 1.
Proof.
  intros Hf Hst Hglob.
  assert (∀ self0, promote_templates unwritable st_size self0 fs source_dir
                     target_dir qa_results_file = (self0, fs, Ok false)) as H.
  { intros self0. unfold promote_templates.
    rewrite (json_load_doc _ _ _ Hf). simpl. rewrite Hst. simpl.
    rewrite Hglob. reflexivity. }
  split; [apply H|].
  unfold promote_to_testing_py.main. rewrite H. reflexivity.
Qed.

Lemma C7_no_templates_is_failure_witness :
  let qa := ["out"; "evaluation.json"] in
  let fields := [("overall_status", JStr "PASSED")] in
  fs_no_templates !! qa = Some (JsonDoc (JObj fields))
  ∧ assoc "overall_status" fields = Some (JStr "PASSED")
  ∧ glob_md fs_no_templates ["qa"] = []
  ∧ promote_templates all_writable (text_size fs_no_templates)
      (new_promoter "2025-01-01T00:00:00") fs_no_templates ["qa"] ["testing"] qa
    = (new_promoter "2025-01-01T00:00:00", fs_no_templates, Ok false)
  ∧ exit_code (snd (promote_to_testing_py.main "2025-01-01T00:00:00"
                      all_writable (text_size fs_no_templates) fs_no_templates
                      ["qa"] ["testing"] qa)) = 1.
Proof.
  intros qa fields.
  split; [reflexivity|]. split; [reflexivity|]. split; [vm_compute; reflexivity|].
  apply (C7_no_templates_is_failure "2025-01-01T00:00:00" all_writable
           (text_size fs_no_templates) (new_promoter "2025-01-01T00:00:00")
           fs_no_templates ["qa"] ["testing"] qa fields).
  - reflexivity.
  - reflexivity.
  - vm_compute. reflexivity.
Defined.

(** With templates present and a PASSED evaluation the same call copies
    them: the gate and the empty-tree check are what stops it above. *)
Example passed_with_templates_promotes :
  let fs := <[ ["out"; "evaluation.json"] :=
                 JsonDoc (JObj [("overall_status", JStr "PASSED")]) ]> fs_failed_qa in
  let '(fs', run) :=
    promote_to_testing_py.main "2025-01-01T00:00:00" all_writable (text_size fs)
      fs ["qa"] ["testing"] ["out"; "evaluation.json"] in
  run = Exit 0
  ∧ fs' !! ["testing"; "a.md"] = Some (Raw "# a")
  ∧ fs' !! ["testing"; "sub"; "b.md"] = Some (Raw "# b")
  ∧ is_file fs' ["testing"; "a.json"] = true
  ∧ is_file fs' ["testing"; "sub"; "b.json"] = true
  ∧ is_file fs' ["testing"; "promotion_summary.json"] = true
  ∧ is_file fs' ["testing"; "README.md"] = true.
Proof. vm_compute. repeat split; reflexivity. Qed.

(** ** The gate status checker *)

Lemma format_1f_number (v : json) : is_ok (format_1f v) = is_number v.
Proof. destruct v; reflexivity. Qed.

(** A block of the summary prints exactly for the records [category_ok]
    accepts; it raises for the others. *)
Lemma category_line_ok (fields : list (string * json)) (cat key : string) :
  is_ok (category_line (JObj fields) cat key) = category_ok fields cat key.
Proof.
  unfold category_line, category_ok. simpl.
  destruct (assoc cat fields) as [record|] eqn:Hcat.
  - rewrite bool_decide_eq_true_2 by eauto. simpl.
    destruct record as [| | | | |rfields]; try reflexivity. simpl.
    destruct (assoc "passed" rfields) as [flag|] eqn:Hflag.
    + rewrite bool_decide_eq_true_2 by eauto. simpl.
      destruct (assoc key rfields) as [v|]; simpl.
      * apply format_1f_number.
      * reflexivity.
    + rewrite bool_decide_eq_false_2 by (intros [? ?]; discriminate).
      reflexivity.
  - rewrite bool_decide_eq_false_2 by (intros [? ?]; discriminate).
    reflexivity.
Qed.

Lemma category_line_unit (fields : list (string * json)) (cat key : string) :
  category_ok fields cat key = true ->
  category_line (JObj fields) cat key = Ok tt.
Proof.
  rewrite <- category_line_ok.
  destruct (category_line _ _ _) as [[]|]; [reflexivity | discriminate].
Qed.

Lemma category_line_raises (fields : list (string * json)) (cat key : string) :
  category_ok fields cat key = false ->
  ∃ e, category_line (JObj fields) cat key = Raise e.
Proof.
  rewrite <- category_line_ok.
  destruct (category_line _ _ _) as [|e]; [discriminate | eauto].
Qed.

(** What the body of the [try] gives for a dict. *)
Lemma check_try_dict fs f fields :
  fs !! f = Some (JsonDoc (JObj fields)) ->
  if categories_ok fields
  then check_try fs f
       = Ok (default (JStr "FAILED") (assoc "overall_status" fields))
  else ∃ e, check_try fs f = Raise e.
Proof.
  intros Hf. unfold check_try, categories_ok.
  rewrite (json_load_doc _ _ _ Hf). cbn [bind py_get].
  destruct (category_ok fields "security" "security_score") eqn:H1.
  2:{ destruct (category_line_raises _ _ _ H1) as [e ->]. simpl. eauto. }
  rewrite (category_line_unit _ _ _ H1). cbn [bind andb].
  destruct (category_ok fields "compliance" "compliance_pass_rate") eqn:H2.
  2:{ destruct (category_line_raises _ _ _ H2) as [e ->]. simpl. eauto. }
  rewrite (category_line_unit _ _ _ H2). cbn [bind andb].
  destruct (category_ok fields "quality" "quality_score") eqn:H3.
  2:{ destruct (category_line_raises _ _ _ H3) as [e ->]. simpl. eauto. }
  rewrite (category_line_unit _ _ _ H3). cbn [bind andb].
  destruct (category_ok fields "performance" "performance_score") eqn:H4.
  2:{ destruct (category_line_raises _ _ _ H4) as [e ->]. simpl. eauto. }
  rewrite (category_line_unit _ _ _ H4). reflexivity.
Qed.





(** Writing an evaluation and reading it back with the checker gives the
    status that was written. *)
Example round_trip_all_green :
  let '(fs', run) :=
    evaluate_qa_quality_gates_py.main "2025-01-01T00:00:00" all_writable
      fs_all_green ["sec"] ["comp"] ["qual"] ["perf"] ["out"; "evaluation.json"] in
  run = Exit 0
  ∧ check_qa_gate_status_py.main fs' ["out"; "evaluation.json"]
    = (JStr "PASSED", Exit 0).
Proof. vm_compute. split; reflexivity. Qed.

(** ** Exit codes of the four commands *)

Lemma overall_status_two_valued now fs sd cd qd pd r :
  evaluate_all_gates now fs sd cd qd pd = Ok r ->
  EvaluationResult.overall_status r = "PASSED"
  ∨ EvaluationResult.overall_status r = "FAILED".
Proof.
  intros Hr. destruct (evaluate_all_gates_inv _ _ _ _ _ _ _ Hr)
    as (_ & _ & _ & _ & ->).
  destruct (all_passed _); [left | right]; reflexivity.
Qed.

(** [evaluate-gates] leaves through [sys.exit] with 0 for PASSED and 1 for
    FAILED. *)
Lemma evaluate_main_exit now unwritable fs sr cr qr pr output code :
  snd (evaluate_qa_quality_gates_py.main now unwritable fs sr cr qr pr output)
  = Exit code ->
  ∃ r, evaluate_all_gates now fs sr cr qr pr = Ok r
       ∧ (code = 0 <-> EvaluationResult.overall_status r = "PASSED")
       ∧ (code = 1 <-> EvaluationResult.overall_status r = "FAILED").
Proof.
  unfold evaluate_qa_quality_gates_py.main.
  destruct (makedirs _ _ _); [|discriminate].
  destruct (evaluate_all_gates _ _ _ _ _ _) as [r|] eqn:Hr; [|discriminate].
  destruct (write_file _ _ _ _); [|discriminate].
  simpl. intros [= <-]. exists r. split; [reflexivity|].
  destruct (overall_status_two_valued _ _ _ _ _ _ _ Hr) as [-> | ->];
    simpl; split; split; first [reflexivity | discriminate].
Qed.

(** [check-gate-status] always leaves through [sys.exit]. *)
Lemma check_main_exit fs evaluation_file :
  ∃ code, snd (check_qa_gate_status_py.main fs evaluation_file) = Exit code
          ∧ (code = 0 <-> check_qa_gate_status fs evaluation_file = JStr "PASSED")
          ∧ (code = 1 <-> check_qa_gate_status fs evaluation_file ≠ JStr "PASSED").
Proof.
  unfold check_qa_gate_status_py.main. simpl. eexists. split; [reflexivity|].
  rewrite <- py_eq_str_true.
  destruct (py_eq_str _ "PASSED"); split; split;
    first [reflexivity | discriminate | congruence].
Qed.

(** [promote-templates] leaves through [sys.exit] with 0 when
    [promote_templates] returned [True] and 1 when it returned [False]. *)
Lemma promote_main_exit now unwritable st_size fs src tgt qa code :
  snd (promote_to_testing_py.main now unwritable st_size fs src tgt qa)
  = Exit code ->
  ∃ self' fs' success,
    promote_templates unwritable st_size (new_promoter now) fs src tgt qa
    = (self', fs', Ok success)
    ∧ (code = 0 <-> success = true)
    ∧ (code = 1 <-> success = false).
Proof.
  unfold promote_to_testing_py.main.
  destruct (promote_templates _ _ _ _ _ _ _) as [[self' fs'] [success|e]];
    [|discriminate].
  destruct success.
  - destruct (create_testing_readme _ _ _ _); [|discriminate].
    simpl. intros [= <-]. exists self', fs', true.
    split; [reflexivity|]. split; split; first [reflexivity | discriminate].
  - simpl. intros [= <-]. exists self', fs', false.
    split; [reflexivity|]. split; split; first [reflexivity | discriminate].
Qed.

(** [create-promotion-report] leaves through [sys.exit(0)], whatever the
    status it was given. *)
Lemma report_main_exit now unwritable fs qa target status code :
  snd (create_qa_promotion_report_py.main now unwritable fs qa target status)
  = Exit code ->
  code = 0.
Proof.
  unfold create_qa_promotion_report_py.main.
  destruct (_ || _); [discriminate|].
  destruct (create_qa_promotion_report _ _ _ _ _); [|discriminate].
  destruct (write_file _ _ _ _); [|discriminate].
  simpl. intros [= <-]. reflexivity.
Qed.

(** C3, as stated, fails for [create-promotion-report]: called with the
    status FAILED it writes a report whose [promotion_status] is FAILED and
    whose recommendation is REJECTED, and exits with code 0. *)
Lemma C3_counterexample :
  let '(fs', run) :=
    create_qa_promotion_report_py.main "2025-01-01T00:00:00" all_writable
      fs_failed_qa ["out"; "evaluation.json"] "testing" "FAILED" in
  exit_code run = 0
  ∧ ∃ report,
      fs' !! create_qa_promotion_report_py.report_file = Some (JsonDoc report)
      ∧ get2 report "promotion_report" "promotion_status" JNull
        = Ok (JStr "FAILED")
      ∧ get2 report "promotion_report" "recommendation" JNull
        = Ok (JStr "REJECTED - QA quality gates failed, requires remediation").
Proof.
  vm_compute. split; [reflexivity|].
  eexists. split; [reflexivity|]. split; reflexivity.
Qed.

(** C3, amended: when [evaluate-gates], [check-gate-status] or
    [promote-templates] runs to its [sys.exit], the exit code is 0 exactly
    when the operation reports success/PASSED and 1 exactly when it
    reports failure/FAILED; [create-promotion-report] exits with 0
    whenever it runs to its end, whatever status it reports; a command
    that dies on an uncaught exception exits with 1. *)
Theorem C3_exit_codes_of_the_commands :
  (∀ now unwritable fs sr cr qr pr output code,
     snd (evaluate_qa_quality_gates_py.main now unwritable fs sr cr qr pr output)
     = Exit code ->
     ∃ r, evaluate_all_gates now fs sr cr qr pr = Ok r
          ∧ (code = 0 <-> EvaluationResult.overall_status r = "PASSED")
          ∧ (code = 1 <-> EvaluationResult.overall_status r = "FAILED"))
  ∧ (∀ fs evaluation_file,
       ∃ code,
         snd (check_qa_gate_status_py.main fs evaluation_file) = Exit code
         ∧ (code = 0 <-> check_qa_gate_status fs evaluation_file = JStr "PASSED")
         ∧ (code = 1 <-> check_qa_gate_status fs evaluation_file ≠ JStr "PASSED"))
  ∧ (∀ now unwritable st_size fs src tgt qa code,
       snd (promote_to_testing_py.main now unwritable st_size fs src tgt qa)
       = Exit code ->
       ∃ self' fs' success,
         promote_templates unwritable st_size (new_promoter now) fs src tgt qa
         = (self', fs', Ok success)
         ∧ (code = 0 <-> success = true)
         ∧ (code = 1 <-> success = false))
  ∧ (∀ now unwritable fs qa target status code,
       snd (create_qa_promotion_report_py.main now unwritable fs qa target status)
       = Exit code ->
       code = 0)
  ∧ (∀ e, exit_code (Uncaught e) = 1).
Proof.
  split; [exact evaluate_main_exit|].
  split; [exact check_main_exit|].
  split; [exact promote_main_exit|].
  split; [exact report_main_exit|].
  reflexivity.
Qed.

(** * Further properties of the scripts *)

(** ** Security evaluator: scores and counts *)

Lemma bandit_term_shape fs d s v :
  bandit_term fs d = Some (s, v) ->
  0 <= v ∧ 0 <= s <= 100 ∧ (v = 0 -> s = 100 ∨ s = 50).
Proof.
  unfold bandit_term. destruct (path_exists _ _); [|discriminate].
  destruct (bandit_try _ _) as [[s' v']|e] eqn:Htry.
  - intros [= <- <-]. unfold bandit_try in Htry.
    destruct (json_load _ _) as [j|]; simpl in Htry; [|discriminate].
    destruct (py_get j _ _) as [res|]; simpl in Htry; [|discriminate].
    destruct (py_iter res) as [rs|]; simpl in Htry; [|discriminate].
    destruct (count_where _ rs) as [h|] eqn:Hh; simpl in Htry; [|discriminate].
    destruct (count_where _ rs) as [m|] eqn:Hm in Htry; simpl in Htry;
      [|discriminate].
    apply count_where_nonneg in Hh, Hm. injection Htry as <- <-. lia.
  - intros [= <- <-]. lia.
Qed.

Lemma safety_term_shape fs d s v :
  safety_term fs d = Some (s, v) ->
  0 <= v ∧ 0 <= s <= 100 ∧ (v = 0 -> s = 100 ∨ s = 50).
Proof.
  unfold safety_term. destruct (path_exists _ _); [|discriminate].
  destruct (safety_try _ _) as [[s' v']|e] eqn:Htry.
  - intros [= <- <-]. unfold safety_try in Htry.
    destruct (json_load _ _) as [j|]; simpl in Htry; [|discriminate].
    injection Htry as <- <-. destruct j; lia.
  - intros [= <- <-]. lia.
Qed.

Lemma semgrep_term_shape fs d s v :
  semgrep_term fs d = Some (s, v) ->
  0 <= v ∧ 0 <= s <= 100 ∧ (v = 0 -> s = 100 ∨ s = 50).
Proof.
  unfold semgrep_term. destruct (path_exists _ _); [|discriminate].
  destruct (semgrep_try _ _) as [[s' v']|e] eqn:Htry.
  - intros [= <- <-]. unfold semgrep_try in Htry.
    destruct (json_load _ _) as [j|]; simpl in Htry; [|discriminate].
    destruct (py_get j _ _) as [res|]; simpl in Htry; [|discriminate].
    destruct (py_iter res) as [rs|]; simpl in Htry; [|discriminate].
    destruct (count_where _ rs) as [h|] eqn:Hh; simpl in Htry; [|discriminate].
    apply count_where_nonneg in Hh. injection Htry as <- <-. lia.
  - intros [= <- <-]. lia.
Qed.

Lemma Qle_bool_inject_div3 (t : Z) (z : Z) :
  Qle_bool (inject_Z t) (inject_Z z / 3) = (3 * t <=? z).
Proof.
  unfold Qle_bool, Qdiv, Qmult, Qinv, inject_Z. simpl.
  apply eq_true_iff_eq. rewrite !Z.leb_le. lia.
Qed.

(** X1: the security score lies between 0 and 100 and the vulnerability
    count is never negative, whatever the three reports hold. *)
Theorem security_score_in_range (fs : gmap path content) (d : path) :
  let r := evaluate_security_results fs d in
  (0 <= SecurityRecord.security_score r)%Q
  ∧ (SecurityRecord.security_score r <= 100)%Q
  ∧ 0 <= SecurityRecord.vulnerability_count r.
Proof.
  unfold evaluate_security_results, security_totals, add_term.
  destruct (bandit_term fs d) as [[s1 v1]|] eqn:H1;
    destruct (safety_term fs d) as [[s2 v2]|] eqn:H2;
    destruct (semgrep_term fs d) as [[s3 v3]|] eqn:H3;
    try apply bandit_term_shape in H1;
    try apply safety_term_shape in H2;
    try apply semgrep_term_shape in H3;
    cbn [fst snd SecurityRecord.security_score SecurityRecord.vulnerability_count];
    (split; [|split; [|lia]]);
    match goal with
    | |- context [0 <? ?s] => destruct (0 <? s) eqn:Hpos
    end;
    unfold Qle, Qdiv, Qmult, Qinv, inject_Z; simpl; lia.
Qed.

(** The gate in terms of what the three blocks add. *)
Lemma security_passed_terms (fs : gmap path content) (d : path) :
  SecurityRecord.passed (evaluate_security_results fs d) = true
  <-> bandit_term fs d = Some (100, 0)
      ∧ safety_term fs d = Some (100, 0)
      ∧ semgrep_term fs d = Some (100, 0).
Proof.
  unfold evaluate_security_results, security_totals, add_term.
  split.
  - destruct (bandit_term fs d) as [[s1 v1]|] eqn:H1;
      destruct (safety_term fs d) as [[s2 v2]|] eqn:H2;
      destruct (semgrep_term fs d) as [[s3 v3]|] eqn:H3;
      try apply bandit_term_shape in H1;
      try apply safety_term_shape in H2;
      try apply semgrep_term_shape in H3;
      cbn [fst snd SecurityRecord.passed];
      match goal with
      | |- context [0 <? ?s] => destruct (0 <? s) eqn:Hpos
      end;
      try (simpl; discriminate);
      unfold quality_gates.security_score_threshold,
        quality_gates.vulnerability_count_limit;
      change 90%Q with (inject_Z 90);
      rewrite Qle_bool_inject_div3, andb_true_iff, !Z.leb_le;
      intros [Hs Hv];
      try (exfalso; lia).
    assert (v1 = 0 ∧ v2 = 0 ∧ v3 = 0) as (-> & -> & ->) by lia.
    assert (s1 = 100 ∧ s2 = 100 ∧ s3 = 100) as (-> & -> & ->) by lia.
    repeat split; reflexivity.
  - intros (-> & -> & ->). reflexivity.
Qed.


(** X2: the security gate passes exactly when all three tool reports are
    there and the block of each runs without an error and counts no
    vulnerability (score 100, count 0); a report that is missing, or whose
    block raises, always fails the gate. *)
Theorem security_passed_iff_all_clean (fs : gmap path content) (d : path) :
  let bandit_file := d // "bandit-report.json" in
  let safety_file := d // "safety-report.json" in
  let semgrep_file := d // "semgrep-report.json" in
  let passed := SecurityRecord.passed (evaluate_security_results fs d) in
  (passed = true
   <-> (path_exists fs bandit_file = true
        ∧ bandit_try fs bandit_file = Ok (100, 0))
       ∧ (path_exists fs safety_file = true
          ∧ safety_try fs safety_file = Ok (100, 0))
       ∧ (path_exists fs semgrep_file = true
          ∧ semgrep_try fs semgrep_file = Ok (100, 0)))
  ∧ (path_exists fs bandit_file = false
     ∨ path_exists fs safety_file = false
     ∨ path_exists fs semgrep_file = false -> passed = false)
  ∧ ((∃ e, bandit_try fs bandit_file = Raise e)
     ∨ (∃ e, safety_try fs safety_file = Raise e)
     ∨ (∃ e, semgrep_try fs semgrep_file = Raise e) -> passed = false).
Proof.
  intros bandit_file safety_file semgrep_file passed.
  assert (bandit_term fs d = Some (100, 0)
          <-> path_exists fs bandit_file = true
              ∧ bandit_try fs bandit_file = Ok (100, 0)) as Hb.
  { unfold bandit_term. fold bandit_file.
    destruct (path_exists fs bandit_file).
    - destruct (bandit_try fs bandit_file) as [sv|e].
      + split; [intros [= ->]; split; reflexivity | intros [_ [= ->]]; reflexivity].
      + split; [discriminate | intros [_ [=]]].
    - split; [discriminate | intros [[=] _]]. }
  assert (safety_term fs d = Some (100, 0)
          <-> path_exists fs safety_file = true
              ∧ safety_try fs safety_file = Ok (100, 0)) as Hs.
  { unfold safety_term. fold safety_file.
    destruct (path_exists fs safety_file).
    - destruct (safety_try fs safety_file) as [sv|e].
      + split; [intros [= ->]; split; reflexivity | intros [_ [= ->]]; reflexivity].
      + split; [discriminate | intros [_ [=]]].
    - split; [discriminate | intros [[=] _]]. }
  assert (semgrep_term fs d = Some (100, 0)
          <-> path_exists fs semgrep_file = true
              ∧ semgrep_try fs semgrep_file = Ok (100, 0)) as Hg.
  { unfold semgrep_term. fold semgrep_file.
    destruct (path_exists fs semgrep_file).
    - destruct (semgrep_try fs semgrep_file) as [sv|e].
      + split; [intros [= ->]; split; reflexivity | intros [_ [= ->]]; reflexivity].
      + split; [discriminate | intros [_ [=]]].
    - split; [discriminate | intros [[=] _]]. }
  assert (passed = true
          <-> (path_exists fs bandit_file = true
               ∧ bandit_try fs bandit_file = Ok (100, 0))
              ∧ (path_exists fs safety_file = true
                 ∧ safety_try fs safety_file = Ok (100, 0))
              ∧ (path_exists fs semgrep_file = true
                 ∧ semgrep_try fs semgrep_file = Ok (100, 0))) as Hiff.
  { subst passed. rewrite security_passed_terms, Hb, Hs, Hg. reflexivity. }
  split; [exact Hiff|]. split.
  - intros Hmissing. apply not_true_is_false. intros Hp.
    apply Hiff in Hp. destruct Hp as ((E1 & _) & (E2 & _) & (E3 & _)).
    destruct Hmissing as [H | [H | H]]; congruence.
  - intros Hraise. apply not_true_is_false. intros Hp.
    apply Hiff in Hp. destruct Hp as ((_ & T1) & (_ & T2) & (_ & T3)).
    destruct Hraise as [[e H] | [[e H] | [e H]]]; congruence.
Qed.

Lemma count_where_severity (s : string) (findings : list (list (string * json))) :
  count_where (fun r => v <- py_get r "issue_severity" JNull ;;
                        Ok (py_eq_str v s)) (map JObj findings)
  = Ok (severity_count s findings).
Proof.
  unfold severity_count.
  induction findings as [|f rest IH]; [reflexivity|].
  cbn [map count_where]. rewrite IH. cbn [py_get bind].
  fold (issue_severity f).
  destruct (py_eq_str (issue_severity f) s) eqn:E.
  - rewrite filter_cons_True by exact E. cbn [length]. f_equal. lia.
  - rewrite filter_cons_False by congruence. reflexivity.
Qed.

(** X3: for a Bandit report whose [results] is a list of findings (dicts),
    the block adds the score 100 less 20 for each HIGH and 10 for each
    MEDIUM finding, floored at 0, and counts exactly the HIGH and MEDIUM
    findings as vulnerabilities; findings of another severity change
    nothing. *)
Theorem bandit_term_counts_high_and_medium (fs : gmap path content) (d : path)
    (report : list (string * json)) (findings : list (list (string * json))) :
  fs !! (d // "bandit-report.json") = Some (JsonDoc (JObj report)) ->
  assoc "results" report = Some (JArr (map JObj findings)) ->
  let high := severity_count "HIGH" findings in
  let medium := severity_count "MEDIUM" findings in
  bandit_term fs d
  = Some (Z.max 0 (100 - high * 20 - medium * 10), high + medium).
Proof.
  intros Hf Hres high medium. unfold bandit_term, bandit_try.
  rewrite (file_exists _ _ _ Hf), (json_load_doc _ _ _ Hf).
  cbn [bind py_get]. rewrite Hres. cbn [default id py_iter bind].
  rewrite !count_where_severity. reflexivity.
Qed.

Lemma bandit_term_counts_high_and_medium_witness :
  let report :=
    [("results", JArr (map JObj
       [[("issue_severity", JStr "HIGH")];
        [("issue_severity", JStr "MEDIUM"); ("test_id", JStr "B101")];
        [("issue_severity", JStr "LOW")];
        [("issue_severity", JStr "HIGH")]]))] in
  let findings :=
    [[("issue_severity", JStr "HIGH")];
     [("issue_severity", JStr "MEDIUM"); ("test_id", JStr "B101")];
     [("issue_severity", JStr "LOW")];
     [("issue_severity", JStr "HIGH")]] in
  fs_bandit_findings !! (["sec"] // "bandit-report.json")
    = Some (JsonDoc (JObj report))
  ∧ assoc "results" report = Some (JArr (map JObj findings))
  ∧ bandit_term fs_bandit_findings ["sec"] = Some (50, 3).
Proof.
  intros report findings.
  split; [reflexivity|]. split; [reflexivity|].
  rewrite (bandit_term_counts_high_and_medium fs_bandit_findings ["sec"]
             report findings); reflexivity.
Defined.

(** X4: a Safety report that is a list of [n] entries adds the score 100
    less 15 for each entry, floored at 0, and [n] vulnerabilities; a report
    that parses to anything but a list counts as clean, with the full
    score 100. *)
Theorem safety_term_counts_list_entries (fs : gmap path content) (d : path)
    (report : json) :
  fs !! (d // "safety-report.json") = Some (JsonDoc report) ->
  (∀ entries, report = JArr entries ->
     let n := Z.of_nat (length entries) in
     safety_term fs d = Some (Z.max 0 (100 - n * 15), n)
     ∧ (7 <= n -> safety_term fs d = Some (0, n)))
  ∧ ((∀ entries, report ≠ JArr entries) -> safety_term fs d = Some (100, 0)).
Proof.
  intros Hf.
  assert (safety_term fs d
          = Some (let n := match report with
                           | JArr items => Z.of_nat (length items)
                           | _ => 0
                           end in
                  (Z.max 0 (100 - n * 15), n))) as Hterm.
  { unfold safety_term, safety_try.
    rewrite (file_exists _ _ _ Hf), (json_load_doc _ _ _ Hf). reflexivity. }
  rewrite Hterm. split.
  - intros entries -> n. split; [reflexivity|].
    intros Hn. cbv zeta. fold n. f_equal. f_equal. lia.
  - intros Hno. destruct report; try reflexivity.
    exfalso. eapply Hno. reflexivity.
Qed.

Lemma safety_term_counts_list_entries_witness :
  let report := JArr [JArr [JStr "pkg-a"]; JArr [JStr "pkg-b"]] in
  fs_safety_two !! (["sec"] // "safety-report.json") = Some (JsonDoc report)
  ∧ safety_term fs_safety_two ["sec"] = Some (70, 2).
Proof.
  intros report. split; [reflexivity|].
  destruct (safety_term_counts_list_entries fs_safety_two ["sec"] report
              eq_refl) as [Hlist _].
  destruct (Hlist _ eq_refl) as [H _]. exact H.
Defined.

(** ** Compliance evaluator *)

(** A check counts exactly when its block in the loop adds one: the file
    is there and the body of the [try] gives [True]. *)
Lemma check_counts_try fs d (c : string) :
  check_counts fs d c
  = path_exists fs (d // c)
    && match compliance_try fs (d // c) with
       | Ok b => b
       | Raise _ => false
       end.
Proof.
  unfold check_counts, compliance_try, json_load, open_file.
  destruct (fs !! (d // c)) as [[text|report|? ? ?]|] eqn:Hf; cbn [bind json_parse].
  - rewrite andb_false_r. reflexivity.
  - rewrite (file_exists _ _ _ Hf). cbn [andb].
    destruct report as [| | | | |fields]; try reflexivity.
    cbn [reports_pass py_get bind].
    destruct (py_eq_str (default JNull (assoc "status" fields)) "PASSED");
      reflexivity.
  - rewrite andb_false_r. reflexivity.
  - rewrite andb_false_r. reflexivity.
Qed.

Lemma compliance_loop_count fs d (checks : list string) (n : Z) :
  compliance_loop fs d checks n
  = n + sumZ (map (fun c => if check_counts fs d c then 1 else 0) checks).
Proof.
  revert n. induction checks as [|c rest IH]; intros n.
  - simpl. unfold sumZ. simpl. lia.
  - cbn [compliance_loop map]. rewrite IH. rewrite (check_counts_try fs d c).
    unfold sumZ. cbn [fold_right]. fold (sumZ (map (fun c => if check_counts fs d c then 1 else 0) rest)).
    destruct (path_exists fs (d // c)); cbn [andb]; [|lia].
    destruct (compliance_try fs (d // c)) as [[|]|]; lia.
Qed.

(** X5: the compliance evaluator counts the checks whose file holds a JSON
    dict with [status] equal to PASSED or a true [compliant]; the pass rate
    is 25 times that count, and the gate passes exactly when all four
    checks count, so one file that is missing, is not JSON, or does not
    report a pass is enough to fail it. *)
Theorem compliance_passed_iff_all_four (fs : gmap path content) (d : path) :
  let r := evaluate_compliance_results fs d in
  ComplianceRecord.passed_checks r
  = sumZ (map (fun c => if check_counts fs d c then 1 else 0) compliance_checks)
  ∧ 0 <= ComplianceRecord.passed_checks r <= 4
  ∧ ComplianceRecord.total_checks r = 4
  ∧ (ComplianceRecord.compliance_pass_rate r
     == inject_Z (25 * ComplianceRecord.passed_checks r))%Q
  ∧ (ComplianceRecord.passed r = true
     <-> ∀ c, In c compliance_checks -> check_counts fs d c = true)
  ∧ (∀ c, In c compliance_checks -> path_exists fs (d // c) = false ->
          ComplianceRecord.passed r = false).
Proof.
  assert (∀ c, path_exists fs (d // c) = false -> check_counts fs d c = false)
    as Hmissing.
  { intros c H. rewrite check_counts_try, H. reflexivity. }
  unfold evaluate_compliance_results.
  cbn [ComplianceRecord.passed_checks ComplianceRecord.total_checks
       ComplianceRecord.compliance_pass_rate ComplianceRecord.passed].
  rewrite compliance_loop_count. unfold compliance_checks in *.
  cbn [map length In]. unfold sumZ. cbn [fold_right].
  specialize (Hmissing).
  pose proof (Hmissing "gdpr-compliance.json") as M1.
  pose proof (Hmissing "hipaa-compliance.json") as M2.
  pose proof (Hmissing "soc2-compliance.json") as M3.
  pose proof (Hmissing "iso27001-compliance.json") as M4.
  clear Hmissing.
  destruct (check_counts fs d "gdpr-compliance.json") eqn:E1;
    destruct (check_counts fs d "hipaa-compliance.json") eqn:E2;
    destruct (check_counts fs d "soc2-compliance.json") eqn:E3;
    destruct (check_counts fs d "iso27001-compliance.json") eqn:E4;
    (split; [reflexivity|]); (split; [simpl; lia|]); (split; [reflexivity|]);
    (split; [reflexivity|]);
    (split; [split; [first [discriminate | intros _ c [<- | [<- | [<- | [<- | []]]]]; assumption]
                    | intros H; first [reflexivity
                                      | pose proof (H _ (or_introl eq_refl)); congruence
                                      | pose proof (H _ (or_intror (or_introl eq_refl))); congruence
                                      | pose proof (H _ (or_intror (or_intror (or_introl eq_refl)))); congruence
                                      | pose proof (H _ (or_intror (or_intror (or_intror (or_introl eq_refl))))); congruence]]|]);
    intros c [<- | [<- | [<- | [<- | []]]]] Hno;
    first [reflexivity
          | apply M1 in Hno; congruence | apply M2 in Hno; congruence
          | apply M3 in Hno; congruence | apply M4 in Hno; congruence].
Qed.

Example three_checks_fail :
  let r := evaluate_compliance_results fs_three_checks ["comp"] in
  ComplianceRecord.passed_checks r = 3
  ∧ (ComplianceRecord.compliance_pass_rate r == 75)%Q
  ∧ ComplianceRecord.passed r = false.
Proof. cbv zeta. split; [|split]; reflexivity. Qed.

(** ** Quality evaluator *)

Lemma as_num_number (x : json) : is_ok (as_num x) = is_number x.
Proof. destruct x as [| [|] | | | |]; reflexivity. Qed.

(** X6: in every record the quality evaluator returns, the gate passed
    exactly when the quality score is at least 85 and the coverage figure
    is a number that is at least 80; a record whose coverage figure is not
    a number is returned only with a score below 85 and a failed gate,
    since at 85 or more the comparison of the figure raises. *)
Theorem quality_gate_relation (fs : gmap path content) (d : path)
    (r : QualityRecord.t) :
  evaluate_quality_results fs d = Ok r ->
  (QualityRecord.passed r = true
   <-> (85 <= QualityRecord.quality_score r)%Q
       ∧ ∃ c, as_num (QualityRecord.coverage_score r) = Ok c ∧ (80 <= c)%Q)
  ∧ (is_number (QualityRecord.coverage_score r) = false ->
     (QualityRecord.quality_score r < 85)%Q ∧ QualityRecord.passed r = false).
Proof.
  unfold evaluate_quality_results.
  unfold quality_gates.code_quality_score, quality_gates.test_coverage_minimum.
  set (avg := avg_quality_score (quality_total fs d)).
  set (cov := coverage_of fs d).
  pose proof (as_num_number cov) as Hnum.
  pose proof (Qle_bool_iff 85 avg) as Havg.
  destruct (Qle_bool 85 avg).
  - destruct (as_num cov) as [c|e] eqn:Hc; cbn [bind]; [|discriminate].
    intros [= <-]. cbn [QualityRecord.passed QualityRecord.quality_score
                        QualityRecord.coverage_score].
    split.
    + rewrite Qle_bool_iff. split.
      * intros H. split; [apply Havg; reflexivity|]. eauto.
      * intros [_ (c' & Hc' & H)]. congruence.
    + intros Hno. simpl in Hnum. congruence.
  - cbn [bind]. intros [= <-].
    cbn [QualityRecord.passed QualityRecord.quality_score
         QualityRecord.coverage_score].
    assert (avg < 85)%Q as Hlt.
    { apply Qnot_le_lt. intros H. apply Havg in H. discriminate. }
    split.
    + split; [discriminate|]. intros [H _]. apply Havg in H. discriminate.
    + intros _. split; [exact Hlt | reflexivity].
Qed.

Lemma quality_gate_relation_witness :
  ∃ r,
    evaluate_quality_results fs_low_quality_odd_coverage ["qual"] = Ok r
    ∧ (QualityRecord.passed r = true
       <-> (85 <= QualityRecord.quality_score r)%Q
           ∧ ∃ c, as_num (QualityRecord.coverage_score r) = Ok c ∧ (80 <= c)%Q)
    ∧ (is_number (QualityRecord.coverage_score r) = false ->
       (QualityRecord.quality_score r < 85)%Q ∧ QualityRecord.passed r = false).
Proof.
  eexists. split.
  - vm_compute. reflexivity.
  - apply (quality_gate_relation fs_low_quality_odd_coverage ["qual"]).
    vm_compute. reflexivity.
Defined.

Example odd_coverage_returned_below_threshold :
  ∃ r,
    evaluate_quality_results fs_low_quality_odd_coverage ["qual"] = Ok r
    ∧ QualityRecord.coverage_score r = JStr "n/a"
    ∧ (QualityRecord.quality_score r == 30)%Q
    ∧ evaluate_all_gates "2025-01-01T00:00:00" fs_low_quality_odd_coverage
        ["sec"] ["comp"] ["qual"] ["perf"] = Raise ValueError.
Proof.
  eexists. split; [vm_compute; reflexivity|].
  split; [reflexivity|]. split; [reflexivity|]. vm_compute. reflexivity.
Qed.

Example bad_coverage_escapes :
  evaluate_quality_results fs_coverage_not_a_number ["qual"] = Raise TypeError
  ∧ evaluate_all_gates "2025-01-01T00:00:00" fs_coverage_not_a_number
      ["sec"] ["comp"] ["qual"] ["perf"] = Raise TypeError.
Proof. split; vm_compute; reflexivity. Qed.

(** X7: when both quality reports are there and neither can be read, each
    adds the partial credit 70: the score is 70, below the threshold, so
    the evaluator returns with the gate failed whatever the coverage
    figure is. *)
Theorem quality_unreadable_reports_fail (fs : gmap path content) (d : path)
    (e1 e2 : pyexn) :
  path_exists fs (d // "complexity-report.json") = true ->
  path_exists fs (d // "technical-debt.json") = true ->
  complexity_try fs (d // "complexity-report.json") = Raise e1 ->
  debt_try fs (d // "technical-debt.json") = Raise e2 ->
  ∃ r, evaluate_quality_results fs d = Ok r
       ∧ (QualityRecord.quality_score r == 70)%Q
       ∧ QualityRecord.passed r = false.
Proof.
  intros X1 X2 T1 T2.
  assert (quality_total fs d = (0 + 70 + 70)%Q) as Htotal.
  { unfold quality_total, complexity_term, debt_term.
    rewrite X1, X2, T1, T2. reflexivity. }
  unfold evaluate_quality_results. rewrite Htotal.
  eexists. split; [reflexivity|]. split; reflexivity.
Qed.

Lemma quality_unreadable_reports_fail_witness :
  path_exists fs_quality_garbled (["qual"] // "complexity-report.json") = true
  ∧ path_exists fs_quality_garbled (["qual"] // "technical-debt.json") = true
  ∧ complexity_try fs_quality_garbled (["qual"] // "complexity-report.json")
    = Raise JSONDecodeError
  ∧ debt_try fs_quality_garbled (["qual"] // "technical-debt.json")
    = Raise JSONDecodeError
  ∧ ∃ r, evaluate_quality_results fs_quality_garbled ["qual"] = Ok r
         ∧ (QualityRecord.quality_score r == 70)%Q
         ∧ QualityRecord.passed r = false.
Proof.
  split; [vm_compute; reflexivity|]. split; [vm_compute; reflexivity|].
  split; [reflexivity|]. split; [reflexivity|].
  apply (quality_unreadable_reports_fail fs_quality_garbled ["qual"]
           JSONDecodeError JSONDecodeError);
    vm_compute; reflexivity.
Defined.

(** ** Performance evaluator *)

(** X8: in every record of the performance evaluator [passed] equals
    [baseline_met]; the record is either the default one or a measured one,
    for which the baseline is met exactly when the score is at least 75. *)
Theorem performance_passed_is_baseline_met (fs : gmap path content) (d : path) :
  let r := evaluate_performance_results fs d in
  PerformanceRecord.passed r = PerformanceRecord.baseline_met r
  ∧ (r = default_performance
     ∨ (PerformanceRecord.note r = None
        ∧ (PerformanceRecord.baseline_met r = true
           <-> (75 <= PerformanceRecord.performance_score r)%Q))).
Proof.
  unfold evaluate_performance_results.
  destruct (path_exists _ _); [|split; [reflexivity | left; reflexivity]].
  destruct (performance_try _ _) as [r|] eqn:Htry;
    [|split; [reflexivity | left; reflexivity]].
  unfold performance_try in Htry.
  destruct (json_load _ _) as [j|]; simpl in Htry; [|discriminate].
  destruct (py_get j "avg_response_time" _) as [rt|]; simpl in Htry;
    [|discriminate].
  destruct (py_get j "peak_memory_mb" _) as [mu|]; simpl in Htry;
    [|discriminate].
  destruct (py_get j "lighthouse_performance" _) as [lh|]; simpl in Htry;
    [|discriminate].
  destruct (as_num rt); simpl in Htry; [|discriminate].
  destruct (as_num mu); simpl in Htry; [|discriminate].
  destruct (as_num lh); simpl in Htry; [|discriminate].
  injection Htry as <-. simpl. split; [reflexivity|]. right.
  split; [reflexivity|]. apply Qle_bool_iff.
Qed.



Example text_metric_falls_back :
  evaluate_performance_results fs_text_metric ["perf"] = default_performance.
Proof. reflexivity. Qed.

(** X10: a baseline that is there but records none of the three metrics is
    scored on the defaults 1000 ms, 512 MB and 90, that is
    [(0 + 48.8 + 90) / 3], and fails the gate, although a missing baseline
    passes it. *)
Theorem performance_empty_baseline_fails (fs : gmap path content) (d : path)
    (fields : list (string * json)) :
  fs !! (d // "performance-baseline.json") = Some (JsonDoc (JObj fields)) ->
  assoc "avg_response_time" fields = None ->
  assoc "peak_memory_mb" fields = None ->
  assoc "lighthouse_performance" fields = None ->
  let r := evaluate_performance_results fs d in
  (PerformanceRecord.performance_score r == 694 # 15)%Q
  ∧ PerformanceRecord.baseline_met r = false
  ∧ PerformanceRecord.passed r = false.
Proof.
  intros Hf H1 H2 H3 r. subst r.
  unfold evaluate_performance_results, performance_try.
  rewrite (file_exists _ _ _ Hf), (json_load_doc _ _ _ Hf).
  cbn [bind py_get]. rewrite H1, H2, H3. repeat split; reflexivity.
Qed.

Lemma performance_empty_baseline_fails_witness :
  fs_empty_baseline !! (["perf"] // "performance-baseline.json")
    = Some (JsonDoc (JObj []))
  ∧ assoc "avg_response_time" [] = None
  ∧ assoc "peak_memory_mb" [] = None
  ∧ assoc "lighthouse_performance" [] = None
  ∧ (let r := evaluate_performance_results fs_empty_baseline ["perf"] in
     (PerformanceRecord.performance_score r == 694 # 15)%Q
     ∧ PerformanceRecord.baseline_met r = false
     ∧ PerformanceRecord.passed r = false).
Proof.
  split; [reflexivity|]. split; [reflexivity|]. split; [reflexivity|].
  split; [reflexivity|].
  apply (performance_empty_baseline_fails fs_empty_baseline ["perf"] []);
    reflexivity.
Defined.

(** ** Evaluation file: writer and checker *)

Lemma categories_ok_evaluation (r : EvaluationResult.t) (fields : list (string * json)) :
  json_of_evaluation r = JObj fields -> categories_ok fields = true.
Proof.
  intros [= <-]. unfold categories_ok, category_ok. cbn.
  destruct (PerformanceRecord.response_time_ms _),
    (PerformanceRecord.memory_usage_mb _),
    (PerformanceRecord.lighthouse_score _); reflexivity.
Qed.

(** X11: the checker reads back what the evaluator writes: on a file
    holding the serialised evaluation it returns the evaluation's overall
    status, for every evaluation record. *)
Theorem check_reads_back_written_status (fs : gmap path content)
    (evaluation_file : path) (r : EvaluationResult.t) :
  fs !! evaluation_file = Some (JsonDoc (json_of_evaluation r)) ->
  check_qa_gate_status fs evaluation_file
  = JStr (EvaluationResult.overall_status r).
Proof.
  intros Hf. unfold check_qa_gate_status.
  rewrite (file_exists _ _ _ Hf). cbn [negb].
  pose proof (check_try_dict fs evaluation_file _ Hf) as Htry.
  rewrite (categories_ok_evaluation r _ eq_refl) in Htry.
  rewrite Htry. reflexivity.
Qed.

Lemma write_file_insert unwritable fs p c fs' :
  write_file unwritable fs p c = Ok fs' -> fs' = <[p := c]> fs.
Proof.
  unfold write_file. destruct (_ || _); [discriminate|]. intros [= <-].
  reflexivity.
Qed.

(** What [evaluate-gates] leaves behind when it runs to its [sys.exit]. *)
Lemma evaluate_main_output now unwritable fs sr cr qr pr output fs' code :
  evaluate_qa_quality_gates_py.main now unwritable fs sr cr qr pr output
  = (fs', Exit code) ->
  ∃ r, evaluate_all_gates now fs sr cr qr pr = Ok r
       ∧ fs' = <[output := JsonDoc (json_of_evaluation r)]> fs
       ∧ code = (if String.eqb (EvaluationResult.overall_status r) "PASSED"
                 then 0 else 1).
Proof.
  unfold evaluate_qa_quality_gates_py.main.
  destruct (makedirs _ _ _); [|discriminate].
  destruct (evaluate_all_gates _ _ _ _ _ _) as [r|]; [|discriminate].
  destruct (write_file _ _ _ _) as [fs1|] eqn:Hw; [|discriminate].
  intros [= <- <-]. exists r. split; [reflexivity|].
  split; [exact (write_file_insert _ _ _ _ _ Hw) | reflexivity].
Qed.

(** X12: the two commands agree: when [evaluate-gates] exits with a code,
    [check-gate-status] run afterwards on the file it wrote prints the
    status that was evaluated and exits with the same code. *)
Theorem check_after_evaluate_agrees (now : string) (unwritable : path -> bool)
    (fs fs' : gmap path content) (sr cr qr pr output : path) (code : Z) :
  evaluate_qa_quality_gates_py.main now unwritable fs sr cr qr pr output
  = (fs', Exit code) ->
  ∃ r, evaluate_all_gates now fs sr cr qr pr = Ok r
       ∧ check_qa_gate_status_py.main fs' output
         = (JStr (EvaluationResult.overall_status r), Exit code).
Proof.
  intros Hmain.
  destruct (evaluate_main_output _ _ _ _ _ _ _ _ _ _ Hmain) as (r & Hr & -> & ->).
  exists r. split; [exact Hr|].
  unfold check_qa_gate_status_py.main.
  rewrite (check_reads_back_written_status _ output r)
    by apply lookup_insert_eq.
  reflexivity.
Qed.


(** X14: given an output path without a directory part, [evaluate-gates]
    dies in [os.makedirs] on the empty directory name, before any report is
    read: nothing is written and the exit status is 1. *)
Theorem evaluate_main_bare_output_name (now : string)
    (unwritable : path -> bool) (fs : gmap path content)
    (sr cr qr pr : path) (file_name : string) :
  evaluate_qa_quality_gates_py.main now unwritable fs sr cr qr pr [file_name]
  = (fs, Uncaught OSError)
  ∧ exit_code (snd (evaluate_qa_quality_gates_py.main now unwritable fs
                      sr cr qr pr [file_name])) = 1.
Proof. split; reflexivity. Qed.

(** ** Promotion report *)

(** X15: the report echoes the status and target it was called with, and
    its recommendation and action follow that status argument alone:
    APPROVED for the string PASSED, REJECTED for anything else, whatever
    the evaluation file says. *)
Theorem report_recommendation_follows_status (now : string)
    (fs : gmap path content) (qa : path) (target status : string)
    (report : json) :
  create_qa_promotion_report now fs qa target status = Ok report ->
  get2 report "promotion_report" "promotion_status" JNull = Ok (JStr status)
  ∧ get2 report "promotion_report" "target_stage" JNull = Ok (JStr target)
  ∧ get2 report "promotion_report" "recommendation" JNull
    = Ok (JStr (if String.eqb status "PASSED"
                then "APPROVED - All QA quality gates passed, ready for Testing stage"
                else "REJECTED - QA quality gates failed, requires remediation"))
  ∧ get2 report "promotion_report" "action_taken" JNull
    = Ok (JStr (if String.eqb status "PASSED"
                then "Automatic promotion to Testing stage initiated"
                else "Promotion blocked, manual review required")).
Proof.
  unfold create_qa_promotion_report.
  repeat match goal with
         | |- context [bind ?m _] =>
             destruct m; cbn [bind]; [|discriminate]
         end.
  intros [= <-]. repeat split; reflexivity.
Qed.

Lemma report_recommendation_follows_status_witness :
  ∃ report,
    create_qa_promotion_report "2025-01-01T00:00:00" fs_failed_qa
      ["out"; "evaluation.json"] "testing" "PASSED" = Ok report
    ∧ get2 report "promotion_report" "promotion_status" JNull
      = Ok (JStr "PASSED")
    ∧ get2 report "promotion_report" "qa_validation_summary" JNull
      = Ok (JStr "FAILED")
    ∧ get2 report "promotion_report" "recommendation" JNull
      = Ok (JStr "APPROVED - All QA quality gates passed, ready for Testing stage").
Proof.
  eexists. split; [vm_compute; reflexivity|].
  destruct (report_recommendation_follows_status "2025-01-01T00:00:00"
              fs_failed_qa ["out"; "evaluation.json"] "testing" "PASSED" _
              eq_refl) as (H1 & _ & H3 & _).
  split; [exact H1|]. split; [reflexivity | exact H3].
Defined.

(** X16: when the evaluation file is missing or cannot be read, the report
    is still built, from an empty evaluation: the summary is UNKNOWN, the
    four scores and the counts are 0 and both certifications are false. *)
Theorem report_of_unreadable_evaluation (now : string) (fs : gmap path content)
    (qa : path) (target status : string) (e : pyexn) :
  json_load fs qa = Raise e ->
  ∃ report,
    create_qa_promotion_report now fs qa target status = Ok report
    ∧ get2 report "promotion_report" "qa_validation_summary" JNull
      = Ok (JStr "UNKNOWN")
    ∧ get2 report "promotion_report" "detailed_scores" JNull
      = Ok (JObj [("security_score", JInt 0); ("compliance_pass_rate", JInt 0);
                  ("quality_score", JInt 0); ("performance_score", JInt 0)])
    ∧ get2 report "promotion_report" "security_validation" JNull
      = Ok (JObj [("vulnerability_count", JInt 0);
                  ("security_certified", JBool false)])
    ∧ get2 report "promotion_report" "compliance_validation" JNull
      = Ok (JObj [("passed_checks", JInt 0); ("total_checks", JInt 0);
                  ("compliance_validated", JBool false)]).
Proof.
  intros Hload. unfold create_qa_promotion_report. rewrite Hload.
  eexists. split; [reflexivity|]. repeat split; reflexivity.
Qed.

Lemma report_of_unreadable_evaluation_witness :
  json_load ∅ ["out"; "evaluation.json"] = Raise OSError
  ∧ ∃ report,
      create_qa_promotion_report "2025-01-01T00:00:00" ∅
        ["out"; "evaluation.json"] "testing" "FAILED" = Ok report
      ∧ get2 report "promotion_report" "qa_validation_summary" JNull
        = Ok (JStr "UNKNOWN").
Proof.
  assert (json_load (∅ : gmap path content) ["out"; "evaluation.json"]
          = Raise OSError) as Hload by reflexivity.
  split; [exact Hload|].
  destruct (report_of_unreadable_evaluation "2025-01-01T00:00:00" ∅
              ["out"; "evaluation.json"] "testing" "FAILED" OSError Hload)
    as (report & H & Hs & _).
  exists report. split; [exact H | exact Hs].
Defined.

(** X17: built from a file the evaluator wrote, the report carries the
    evaluation's own figures: its overall status, the four scores, the
    vulnerability count, the check counts and the two [passed] flags. *)
Theorem report_carries_evaluation (now : string) (fs : gmap path content)
    (qa : path) (target status : string) (r : EvaluationResult.t) :
  fs !! qa = Some (JsonDoc (json_of_evaluation r)) ->
  let s := EvaluationResult.security r in
  let c := EvaluationResult.compliance r in
  ∃ report,
    create_qa_promotion_report now fs qa target status = Ok report
    ∧ get2 report "promotion_report" "qa_validation_summary" JNull
      = Ok (JStr (EvaluationResult.overall_status r))
    ∧ get2 report "promotion_report" "detailed_scores" JNull
      = Ok (JObj
          [("security_score", JNum (SecurityRecord.security_score s));
           ("compliance_pass_rate", JNum (ComplianceRecord.compliance_pass_rate c));
           ("quality_score",
            JNum (QualityRecord.quality_score (EvaluationResult.quality r)));
           ("performance_score",
            JNum (PerformanceRecord.performance_score
                    (EvaluationResult.performance r)))])
    ∧ get2 report "promotion_report" "security_validation" JNull
      = Ok (JObj
          [("vulnerability_count", JInt (SecurityRecord.vulnerability_count s));
           ("security_certified", JBool (SecurityRecord.passed s))])
    ∧ get2 report "promotion_report" "compliance_validation" JNull
      = Ok (JObj
          [("passed_checks", JInt (ComplianceRecord.passed_checks c));
           ("total_checks", JInt (ComplianceRecord.total_checks c));
           ("compliance_validated", JBool (ComplianceRecord.passed c))]).
Proof.
  intros Hf s c. unfold create_qa_promotion_report.
  rewrite (json_load_doc _ _ _ Hf).
  eexists. split; [reflexivity|]. repeat split; reflexivity.
Qed.


(** ** Template promoter *)

(** X19: when the QA results file is missing or cannot be read,
    [promote_templates] returns [False] without touching anything and the
    command exits with 1. *)
Theorem promote_unreadable_results (now : string) (unwritable : path -> bool)
    (st_size : path -> Z) (self : PromotionMetadata.t)
    (fs : gmap path content) (src tgt qa : path) (e : pyexn) :
  json_load fs qa = Raise e ->
  promote_templates unwritable st_size self fs src tgt qa = (self, fs, Ok false)
  ∧ promote_to_testing_py.main now unwritable st_size fs src tgt qa
    = (fs, Exit 1).
Proof.
  intros Hload. unfold promote_to_testing_py.main, promote_templates.
  rewrite Hload. split; reflexivity.
Qed.

Lemma promote_unreadable_results_witness :
  json_load fs_no_templates ["out"; "missing.json"] = Raise OSError
  ∧ promote_templates all_writable (text_size fs_no_templates)
      (new_promoter "2025-01-01T00:00:00") fs_no_templates ["qa"] ["testing"]
      ["out"; "missing.json"]
    = (new_promoter "2025-01-01T00:00:00", fs_no_templates, Ok false)
  ∧ promote_to_testing_py.main "2025-01-01T00:00:00" all_writable
      (text_size fs_no_templates) fs_no_templates ["qa"] ["testing"]
      ["out"; "missing.json"]
    = (fs_no_templates, Exit 1).
Proof.
  assert (json_load fs_no_templates ["out"; "missing.json"] = Raise OSError)
    as Hload by (vm_compute; reflexivity).
  split; [exact Hload|].
  exact (promote_unreadable_results "2025-01-01T00:00:00" all_writable
           (text_size fs_no_templates) (new_promoter "2025-01-01T00:00:00")
           fs_no_templates ["qa"] ["testing"] ["out"; "missing.json"] OSError
           Hload).
Defined.




Lemma is_prefix_app_r (t a b : path) :
  is_prefix t a = true -> is_prefix t (a ++ b)%list = true.
Proof.
  revert a. induction t as [|x t IH]; intros a; [reflexivity|].
  destruct a as [|y a]; [discriminate|]. cbn [is_prefix app].
  rewrite !andb_true_iff. intros [Hxy Ht]. split; [exact Hxy | apply IH, Ht].
Qed.

Lemma is_prefix_refl (t : path) : is_prefix t t = true.
Proof.
  induction t as [|x t IH]; [reflexivity|]. cbn [is_prefix].
  rewrite String.eqb_refl. exact IH.
Qed.

Lemma is_prefix_app (t b : path) : is_prefix t (t ++ b)%list = true.
Proof. apply is_prefix_app_r, is_prefix_refl. Qed.

(** Every entry found below a directory is strictly longer than it. *)
Lemma entries_below_longer fs (d p : path) :
  p ∈ entries_below fs d -> (length d < length p)%nat.
Proof.
  unfold entries_below. rewrite elem_of_remove_dups, list_elem_of_In.
  rewrite in_flat_map. intros ([q c] & _ & Hin). cbn [fst] in Hin.
  unfold steps_between in Hin.
  destruct (strictly_below d q) eqn:Hb; [|destruct Hin].
  unfold strictly_below in Hb. apply andb_true_iff in Hb as [_ Hlt].
  apply Nat.ltb_lt in Hlt.
  apply in_map_iff in Hin as (n & <- & Hn). apply in_seq in Hn.
  rewrite length_take. lia.
Qed.

Lemma glob_md_longer fs (src p : path) :
  p ∈ glob_md fs src -> (length src < length p)%nat.
Proof.
  unfold glob_md. rewrite list_elem_of_filter. intros [_ H].
  exact (entries_below_longer _ _ _ H).
Qed.

Lemma write_file_outside unwritable fs q c fs' (t p : path) :
  write_file unwritable fs q c = Ok fs' ->
  is_prefix t q = true -> is_prefix t p = false ->
  fs' !! p = fs !! p.
Proof.
  intros Hw Hq Hp. rewrite (write_file_insert _ _ _ _ _ Hw).
  apply lookup_insert_ne. intros ->. congruence.
Qed.

(** What a successful [copy2] has done. *)
Lemma copy2_insert unwritable fs (sp tp : path) fs1 :
  copy2 unwritable fs sp tp = Ok fs1 ->
  ∃ c, fs !! sp = Some c
       ∧ sp ≠ copy_destination fs sp tp
       ∧ fs1 = <[copy_destination fs sp tp := c]> fs.
Proof.
  unfold copy2. fold (copy_destination fs sp tp).
  destruct (bool_decide (sp = copy_destination fs sp tp)) eqn:Hsame;
    [discriminate|].
  apply bool_decide_eq_false in Hsame. unfold open_file.
  destruct (fs !! sp) as [c|]; cbn [bind]; [|discriminate].
  intros Hw. exists c. split; [reflexivity|]. split; [exact Hsame|].
  exact (write_file_insert _ _ _ _ _ Hw).
Qed.

Lemma copy_destination_below (fs : gmap path content) (sp t rel : path) :
  is_prefix t (copy_destination fs sp (t ++ rel)%list) = true.
Proof.
  unfold copy_destination, joinpath.
  destruct (is_dir fs (t ++ rel)%list).
  - rewrite <- app_assoc. apply is_prefix_app.
  - apply is_prefix_app.
Qed.

(** One copy writes the template and its sidecar, both below the
    directory the template goes to. *)
Lemma copy_template_outside unwritable self fs sp (t rel : path) qa fs' b p :
  copy_template_with_metadata unwritable self fs sp (t ++ rel)%list qa = (fs', b) ->
  rel ≠ [] ->
  is_prefix t p = false ->
  fs' !! p = fs !! p.
Proof.
  intros Hcopy Hrel Hp.
  assert (∀ x, is_prefix t (removelast (t ++ rel)%list // x) = true) as Hmeta.
  { intros x. unfold joinpath. rewrite removelast_app by exact Hrel.
    rewrite <- app_assoc. apply is_prefix_app. }
  revert Hcopy. unfold copy_template_with_metadata, copy_try.
  destruct (mkdir_p _ _ _); [|intros [= <- _]; reflexivity].
  destruct (copy2 unwritable fs sp (t ++ rel)%list) as [fs1|] eqn:Hc;
    [|intros [= <- _]; reflexivity].
  apply copy2_insert in Hc. destruct Hc as (c & _ & _ & ->).
  assert ((<[copy_destination fs sp (t ++ rel)%list := c]> fs) !! p = fs !! p)
    as H1.
  { apply lookup_insert_ne. intros <-.
    rewrite copy_destination_below in Hp. discriminate. }
  unfold with_suffix.
  destruct (String.eqb (name (t ++ rel)%list) ""); cbn [bind];
    [intros [= <- _]; exact H1|].
  destruct (sidecar_metadata _ _ _) as [meta|]; cbn [bind];
    [|intros [= <- _]; exact H1].
  destruct (write_file unwritable _ _ _) as [fs2|] eqn:Hw2;
    intros [= <- _]; [|exact H1].
  rewrite (write_file_outside _ _ _ _ _ _ _ Hw2 (Hmeta _) Hp). exact H1.
Qed.

Lemma promote_loop_outside unwritable st_size (src tgt : path) qa
    (files : list path) self fs n self' fs' n' p :
  Forall (fun f => (length src < length f)%nat) files ->
  promote_loop unwritable st_size src tgt qa files self fs n = (self', fs', n') ->
  is_prefix tgt p = false ->
  fs' !! p = fs !! p.
Proof.
  intros Hfiles. revert self fs n.
  induction Hfiles as [|f rest Hf _ IH]; intros self fs n.
  - cbn [promote_loop]. intros [= _ <- _] _. reflexivity.
  - cbn [promote_loop].
    destruct (copy_template_with_metadata _ _ _ _ _ _) as [fs1 b] eqn:Hcopy.
    intros Hloop Hp.
    assert (fs1 !! p = fs !! p) as H1.
    { apply (copy_template_outside _ _ _ _ _ _ _ _ _ _ Hcopy); [|exact Hp].
      unfold relative_to. intros Hnil.
      apply (f_equal length) in Hnil. rewrite length_drop in Hnil.
      cbn [length] in Hnil. lia. }
    destruct b; apply IH in Hloop; try exact Hp; congruence.
Qed.

(** X21: the promoter writes below the target directory only: after
    [promote_templates], and after the whole command with its README, every
    path outside the target directory holds what it held before. *)
Theorem promoter_writes_only_below_target (now : string)
    (unwritable : path -> bool) (st_size : path -> Z)
    (self : PromotionMetadata.t) (fs : gmap path content)
    (src tgt qa : path) (p : path) :
  is_prefix tgt p = false ->
  (promote_templates unwritable st_size self fs src tgt qa).1.2 !! p = fs !! p
  ∧ (promote_to_testing_py.main now unwritable st_size fs src tgt qa).1 !! p
    = fs !! p.
Proof.
  intros Hp.
  assert (∀ self0,
            (promote_templates unwritable st_size self0 fs src tgt qa).1.2 !! p
            = fs !! p) as Hpromote.
  { intros self0. unfold promote_templates.
    destruct (json_load fs qa) as [j|]; [|reflexivity].
    destruct (py_get j _ _) as [st|]; [|reflexivity].
    destruct (negb _); [reflexivity|].
    destruct (bool_decide _); [reflexivity|].
    destruct (promote_loop _ _ _ _ _ _ _ _ _) as [[self1 fs1] count] eqn:Hloop.
    assert (fs1 !! p = fs !! p) as H1.
    { apply (promote_loop_outside _ _ _ _ _ _ _ _ _ _ _ _ p) in Hloop;
        [exact Hloop | | exact Hp].
      apply Forall_forall. intros f Hf. apply glob_md_longer with (fs := fs).
      exact Hf. }
    destruct (write_file _ _ _ _) as [fs2|] eqn:Hw; cbn; [|exact H1].
    rewrite (write_file_outside _ _ _ _ _ tgt p Hw); [exact H1 | | exact Hp].
    apply is_prefix_app. }
  split; [apply Hpromote|].
  unfold promote_to_testing_py.main.
  specialize (Hpromote (new_promoter now)).
  destruct (promote_templates _ _ _ _ _ _ _) as [[self1 fs1] [[|]|e]];
    cbn in Hpromote |- *; try exact Hpromote.
  unfold create_testing_readme.
  repeat match goal with
         | |- context [bind ?m _] =>
             destruct m; cbn [bind]; [|exact Hpromote]
         end.
  destruct (write_file _ _ _ _) as [fs2|] eqn:Hw; cbn; [|exact Hpromote].
  rewrite (write_file_outside _ _ _ _ _ tgt p Hw); [exact Hpromote | | exact Hp].
  apply is_prefix_app.
Qed.

Lemma promoter_writes_only_below_target_witness :
  is_prefix ["testing"] ["qa"; "a.md"] = false
  ∧ (promote_to_testing_py.main "2025-01-01T00:00:00" all_writable
       (text_size fs_passed_qa) fs_passed_qa ["qa"] ["testing"]
       ["out"; "evaluation.json"]).1 !! ["qa"; "a.md"]
    = fs_passed_qa !! ["qa"; "a.md"].
Proof.
  split; [reflexivity|].
  apply (promoter_writes_only_below_target "2025-01-01T00:00:00" all_writable
           (text_size fs_passed_qa) (new_promoter "2025-01-01T00:00:00")
           fs_passed_qa ["qa"] ["testing"] ["out"; "evaluation.json"]
           ["qa"; "a.md"]).
  reflexivity.
Defined.



(** X23: a copy that returns [False] has written no sidecar: the file
    system is as before, or differs by the copied template alone (at the
    target path, or inside it when that is a directory), which stays when
    the failure comes after the copy. *)
Theorem copy_failure_leaves_at_most_template (unwritable : path -> bool)
    (self : PromotionMetadata.t) (fs fs' : gmap path content)
    (source_path target_path : path) (qa_results : json) :
  copy_template_with_metadata unwritable self fs source_path target_path
    qa_results = (fs', false) ->
  fs' = fs
  ∨ ∃ c, fs !! source_path = Some c
         ∧ fs' = <[copy_destination fs source_path target_path := c]> fs.
Proof.
  unfold copy_template_with_metadata, copy_try.
  destruct (mkdir_p _ _ _); [|intros [= <-]; left; reflexivity].
  destruct (copy2 unwritable fs source_path target_path) as [fs1|] eqn:Hc;
    [|intros [= <-]; left; reflexivity].
  apply copy2_insert in Hc. destruct Hc as (c & Hsrc & _ & ->).
  destruct (_ <- with_suffix target_path ".json" ;; _); [discriminate|].
  intros [= <-]. right. eauto.
Qed.



Example odd_security_promotion_fails :
  let '(fs', run) :=
    promote_to_testing_py.main "2025-01-01T00:00:00" all_writable
      (text_size fs_odd_security) fs_odd_security ["qa"] ["testing"]
      ["out"; "evaluation.json"] in
  run = Exit 1
  ∧ fs' !! ["testing"; "a.md"] = Some (Raw "# a")
  ∧ is_file fs' ["testing"; "a.json"] = false
  ∧ is_file fs' ["testing"; "promotion_summary.json"] = true.
Proof. vm_compute. repeat split; reflexivity. Qed.

(** X25: for an evaluation file that parses, the promotion report can be
    built exactly when the file holds a dict whose [security],
    [compliance], [quality] and [performance] entries are dicts or left
    out; otherwise building it raises, and the command dies with exit
    status 1 without writing a report. *)
Theorem report_needs_dict_records (now : string) (unwritable : path -> bool)
    (fs : gmap path content) (qa : path) (target status : string) (j : json) :
  fs !! qa = Some (JsonDoc j) ->
  let buildable :=
    match j with
    | JObj fields =>
        category_is_dict fields "security"
        && category_is_dict fields "compliance"
        && category_is_dict fields "quality"
        && category_is_dict fields "performance"
    | _ => false
    end in
  is_ok (create_qa_promotion_report now fs qa target status) = buildable
  ∧ (buildable = false ->
     create_qa_promotion_report now fs qa target status = Raise AttributeError
     ∧ ∃ e, create_qa_promotion_report_py.main now unwritable fs qa target status
            = (fs, Uncaught e)).
Proof.
  intros Hf buildable.
  assert (if buildable
          then is_ok (create_qa_promotion_report now fs qa target status) = true
          else create_qa_promotion_report now fs qa target status
               = Raise AttributeError) as H.
  { subst buildable. unfold create_qa_promotion_report.
    rewrite (json_load_doc _ _ _ Hf).
    destruct j as [| | | | |fields]; try reflexivity.
    unfold category_is_dict, get2. cbn [py_get bind].
    destruct (assoc "security" fields) as [[| | | | |?]|];
      cbn [default py_get bind andb]; try reflexivity;
      destruct (assoc "compliance" fields) as [[| | | | |?]|];
      cbn [default py_get bind andb]; try reflexivity;
      destruct (assoc "quality" fields) as [[| | | | |?]|];
      cbn [default py_get bind andb]; try reflexivity;
      destruct (assoc "performance" fields) as [[| | | | |?]|];
      cbn [default py_get bind andb]; reflexivity. }
  destruct buildable.
  - split; [exact H | discriminate].
  - split; [rewrite H; reflexivity|]. intros _. split; [exact H|].
    unfold create_qa_promotion_report_py.main. rewrite H.
    destruct (_ || _); eauto.
Qed.

Lemma report_needs_dict_records_witness :
  let j := JObj [("overall_status", JStr "PASSED"); ("security", JStr "n/a")] in
  fs_odd_security !! ["out"; "evaluation.json"] = Some (JsonDoc j)
  ∧ create_qa_promotion_report "2025-01-01T00:00:00" fs_odd_security
      ["out"; "evaluation.json"] "testing" "PASSED" = Raise AttributeError.
Proof.
  intros j. split; [reflexivity|].
  destruct (report_needs_dict_records "2025-01-01T00:00:00" all_writable
              fs_odd_security ["out"; "evaluation.json"] "testing" "PASSED" j
              eq_refl) as [_ H].
  destruct (H eq_refl) as [Hraise _]. exact Hraise.
Defined.

(** ** Coverage figure of the quality evaluator *)

Lemma coverage_loop_skips fs (skipped files : list path) (c : json) :
  Forall (fun g => is_ok (coverage_try fs g c) = false) skipped ->
  coverage_loop fs (skipped ++ files)%list c = coverage_loop fs files c.
Proof.
  induction 1 as [|g skipped Hg _ IH]; [reflexivity|].
  cbn [app coverage_loop]. destruct (coverage_try fs g c); [discriminate|].
  exact IH.
Qed.

(** X26: the coverage figure is decided by the first summary file, in the
    order of the directory listing, whose block runs without an error;
    files before it that raise are skipped and files after it are never
    read.  If that file is not a [.json] file the figure stays at the
    default 85; if it is a JSON dict with [total.lines.pct] the figure is
    that value. *)
Theorem coverage_decided_by_first_readable (fs : gmap path content) (d : path)
    (skipped rest : list path) (f : path) :
  path_exists fs (d // "coverage") = true ->
  glob_summary fs (d // "coverage") = (skipped ++ f :: rest)%list ->
  Forall (fun g => is_ok (coverage_try fs g (JNum 85)) = false) skipped ->
  (∀ c, fs !! f = Some c -> suffix f ≠ ".json" -> coverage_of fs d = JNum 85)
  ∧ (∀ data total lines,
       suffix f = ".json" ->
       fs !! f = Some (JsonDoc (JObj data)) ->
       assoc "total" data = Some (JObj total) ->
       default (JObj []) (assoc "lines" total) = JObj lines ->
       coverage_of fs d = default (JNum 85) (assoc "pct" lines)).
Proof.
  intros Hdir Hglob Hskip. unfold coverage_of.
  rewrite Hdir, Hglob, (coverage_loop_skips _ _ _ _ Hskip).
  cbn [coverage_loop]. unfold coverage_try, open_file. split.
  - intros c Hf Hsuffix. rewrite Hf. cbn [bind].
    destruct (String.eqb (suffix f) ".json") eqn:E; [|reflexivity].
    apply String.eqb_eq in E. contradiction.
  - intros data total lines Hsuffix Hf Htotal Hlines.
    rewrite Hf, Hsuffix. cbn [bind json_parse py_contains String.eqb].
    try rewrite String.eqb_refl. cbn [bind json_parse py_contains].
    try rewrite Htotal.
    rewrite bool_decide_eq_true_2 by eauto.
    cbn [py_subscript]. rewrite Htotal. cbn [bind py_get].
    rewrite Hlines. reflexivity.
Qed.

Lemma coverage_decided_by_first_readable_witness :
  let d := ["qual"] in
  let bad := ["qual"; "coverage"; "summary.json"] in
  let good := ["qual"; "coverage"; "coverage-summary.json"] in
  path_exists fs_two_summaries (d // "coverage") = true
  ∧ glob_summary fs_two_summaries (d // "coverage") = ([bad] ++ good :: [])%list
  ∧ Forall (fun g => is_ok (coverage_try fs_two_summaries g (JNum 85)) = false)
      [bad]
  ∧ coverage_of fs_two_summaries d = JNum 72.
Proof.
  intros d bad good.
  assert (path_exists fs_two_summaries (d // "coverage") = true) as Hdir
    by (vm_compute; reflexivity).
  assert (glob_summary fs_two_summaries (d // "coverage")
          = ([bad] ++ good :: [])%list) as Hglob by (vm_compute; reflexivity).
  assert (Forall (fun g => is_ok (coverage_try fs_two_summaries g (JNum 85))
                           = false) [bad]) as Hskip.
  { constructor; [vm_compute; reflexivity | constructor]. }
  split; [exact Hdir|]. split; [exact Hglob|]. split; [exact Hskip|].
  destruct (coverage_decided_by_first_readable fs_two_summaries d [bad] []
              good Hdir Hglob Hskip) as [_ H].
  apply (H [("total", JObj [("lines", JObj [("pct", JNum 72)])])]
           [("lines", JObj [("pct", JNum 72)])] [("pct", JNum 72)]);
    reflexivity.
Defined.

(** ** Instances of the properties above *)

Lemma check_reads_back_written_status_witness :
  fs_sample_evaluation !! ["out"; "evaluation.json"]
    = Some (JsonDoc (json_of_evaluation sample_evaluation))
  ∧ check_qa_gate_status fs_sample_evaluation ["out"; "evaluation.json"]
    = JStr "FAILED".
Proof.
  split; [reflexivity|].
  apply (check_reads_back_written_status fs_sample_evaluation
           ["out"; "evaluation.json"] sample_evaluation).
  reflexivity.
Defined.

Lemma check_after_evaluate_agrees_witness :
  let out :=
    evaluate_qa_quality_gates_py.main "2025-01-01T00:00:00" all_writable
      fs_all_green ["sec"] ["comp"] ["qual"] ["perf"]
      ["out"; "evaluation.json"] in
  out.2 = Exit 0
  ∧ ∃ r, evaluate_all_gates "2025-01-01T00:00:00" fs_all_green
           ["sec"] ["comp"] ["qual"] ["perf"] = Ok r
         ∧ check_qa_gate_status_py.main out.1 ["out"; "evaluation.json"]
           = (JStr (EvaluationResult.overall_status r), Exit 0).
Proof.
  intros out.
  assert (out.2 = Exit 0) as Hrun by (vm_compute; reflexivity).
  split; [exact Hrun|]. subst out.
  destruct (evaluate_qa_quality_gates_py.main _ _ _ _ _ _ _ _)
    as [fs' run] eqn:Hmain.
  cbn [fst snd] in Hrun |- *. subst run.
  exact (check_after_evaluate_agrees _ _ _ _ _ _ _ _ _ _ Hmain).
Defined.

Lemma report_carries_evaluation_witness :
  fs_sample_evaluation !! ["out"; "evaluation.json"]
    = Some (JsonDoc (json_of_evaluation sample_evaluation))
  ∧ ∃ report,
      create_qa_promotion_report "2025-01-01T00:00:00" fs_sample_evaluation
        ["out"; "evaluation.json"] "testing" "FAILED" = Ok report
      ∧ get2 report "promotion_report" "qa_validation_summary" JNull
        = Ok (JStr "FAILED")
      ∧ get2 report "promotion_report" "security_validation" JNull
        = Ok (JObj [("vulnerability_count", JInt 0);
                    ("security_certified", JBool true)]).
Proof.
  split; [reflexivity|].
  destruct (report_carries_evaluation "2025-01-01T00:00:00"
              fs_sample_evaluation ["out"; "evaluation.json"] "testing"
              "FAILED" sample_evaluation eq_refl)
    as (report & Hreport & Hsummary & _ & Hsec & _).
  exists report. split; [exact Hreport|]. split; [exact Hsummary | exact Hsec].
Defined.

Lemma copy_failure_leaves_at_most_template_witness :
  let out :=
    copy_template_with_metadata all_writable (new_promoter "2025-01-01T00:00:00")
      fs_passed_qa ["qa"; "missing.md"] ["testing"; "missing.md"]
      (JObj [("overall_status", JStr "PASSED")]) in
  out.2 = false
  ∧ (out.1 = fs_passed_qa
     ∨ ∃ c, fs_passed_qa !! ["qa"; "missing.md"] = Some c
            ∧ out.1
              = <[copy_destination fs_passed_qa ["qa"; "missing.md"]
                    ["testing"; "missing.md"] := c]> fs_passed_qa).
Proof.
  intros out.
  assert (out.2 = false) as Hb by (vm_compute; reflexivity).
  split; [exact Hb|]. subst out.
  destruct (copy_template_with_metadata _ _ _ _ _ _) as [fs' b] eqn:Hcopy.
  cbn [fst snd] in Hb |- *. subst b.
  exact (copy_failure_leaves_at_most_template _ _ _ _ _ _ _ Hcopy).
Defined.
